(** * NextBI authentication session manager

    A shallow embedding of the frontend's [services/authService.ts] (the
    Token Store and the two backend exchange calls) and of
    [context/AuthContext.tsx] (the session controller: startup resolution,
    login, logout, token retrieval, reaction to the auth-changed event),
    followed by the properties of the specification that concern them.

    Conventions of the model.
    - JavaScript values are the type [value]; numbers are integers ([Z]),
      strings are byte strings.  Property reads, truthiness, [||], [?.] and
      [===] follow the language.
    - [localStorage] is a finite map from strings to strings.
    - An [async] function is a computation in the monad [M]: it threads the
      [World] (storage, React state, the log of effects) and ends with
      [Ok r] (the promise resolves) or [Throw e] (it rejects).  A function is
      run to completion: no other task is interleaved at its [await]s.
    - What the browser, axios and MSAL answer is an input: the [Platform]
      record and the [MsalApp] record hold those answers.
    - The page runs in a browser: [window] and [window.dispatchEvent]
      exist, so the [typeof window] guards of the source are taken;
      [localStorage] calls do not throw; [console.*] calls leave no
      trace. *)

From Stdlib Require Import ZArith Ascii String List Bool Lia.
From Stdlib Require Import DecimalString DecimalZ.
From stdpp Require Import base option list strings gmap.
Import ListNotations.

Local Open Scope Z_scope.
Local Open Scope string_scope.
Local Open Scope list_scope.

(* ===================================================================== *)
(** ** JavaScript values *)
(* ===================================================================== *)

#[warnings="-register-all"]
Inductive value : Type :=
| VUndefined
| VNull
| VBool (b : bool)
| VNum (n : Z)
| VStr (s : string)
| VArr (items : list value)
| VObj (fields : list (string * value)).

(** Induction principle that reaches the values stored in arrays and
    objects. *)
Section value_induction.
Variable P : value -> Prop.
Hypothesis Hundef : P VUndefined.
Hypothesis Hnull : P VNull.
Hypothesis Hbool : forall b, P (VBool b).
Hypothesis Hnum : forall n, P (VNum n).
Hypothesis Hstr : forall s, P (VStr s).
Hypothesis Harr : forall l, Forall P l -> P (VArr l).
Hypothesis Hobj : forall fs, Forall (fun kv => P (snd kv)) fs -> P (VObj fs).

Fixpoint value_nested_ind (v : value) : P v :=
  match v with
  | VUndefined => Hundef
  | VNull => Hnull
  | VBool b => Hbool b
  | VNum n => Hnum n
  | VStr s => Hstr s
  | VArr l =>
      Harr l ((fix go (l : list value) : Forall P l :=
                 match l with
                 | [] => @List.Forall_nil _ P
                 | x :: r => @List.Forall_cons _ P x r (value_nested_ind x) (go r)
                 end) l)
  | VObj fs =>
      Hobj fs ((fix go (fs : list (string * value))
                  : Forall (fun kv => P (snd kv)) fs :=
                  match fs with
                  | [] => @List.Forall_nil _ _
                  | kv :: r =>
                      @List.Forall_cons _ (fun kv => P (snd kv)) kv r
                        (value_nested_ind (snd kv)) (go r)
                  end) fs)
  end.
End value_induction.

(** ToBoolean. *)
Definition truthy (v : value) : bool :=
  match v with
  | VUndefined | VNull => false
  | VBool b => b
  | VNum n => negb (n =? 0)%Z
  | VStr s => negb (String.eqb s "")
  | VArr _ | VObj _ => true
  end.

(** [a || b] on values (the right operand is pure wherever the source uses
    the operator). *)
Definition js_or (a b : value) : value := if truthy a then a else b.

(** Own-property lookup in an object literal or a parsed object. *)
Fixpoint assoc (k : string) (fs : list (string * value)) : option value :=
  match fs with
  | [] => None
  | (k', v) :: r => if String.eqb k k' then Some v else assoc k r
  end.

(** [o[k] = v] on the field list of an object: an existing key keeps its
    place and takes the new value, a new key goes last. *)
Fixpoint obj_set (k : string) (v : value) (fs : list (string * value))
  : list (string * value) :=
  match fs with
  | [] => [(k, v)]
  | (k', v') :: r =>
      if String.eqb k k' then (k', v) :: r else (k', v') :: obj_set k v r
  end.

(** An [Error] object with a message. *)
Definition js_Error (msg : string) : value := VObj [("message", VStr msg)].

(** The [TypeError] of a property read on [undefined] or [null]; engines
    differ on the message text, which no caller inspects. *)
Definition js_TypeError (k : string) : value :=
  VObj [("name", VStr "TypeError");
        ("message", VStr ("Cannot read properties of undefined (reading '" +:+ k +:+ "')"))].

(** [v.k]: [inr e] is the exception thrown when [v] is [undefined] or
    [null].  Only the names [success], [data], [token], [user], [message],
    [error], [response], [name] are ever read; none of them is a built-in
    property of a primitive or of an array. *)
Definition prop (v : value) (k : string) : value + value :=
  match v with
  | VUndefined | VNull => inr (js_TypeError k)
  | VObj fs => inl (default VUndefined (assoc k fs))
  | _ => inl VUndefined
  end.

(** [v?.k]. *)
Definition opt_prop (v : value) (k : string) : value :=
  match v with
  | VObj fs => default VUndefined (assoc k fs)
  | _ => VUndefined
  end.

(* ===================================================================== *)
(** ** JSON.stringify and JSON.parse *)
(* ===================================================================== *)

(** The platform's JSON codec on the values above, over lists of
    characters.  Numbers are integers in canonical decimal form (no
    fraction, no exponent); a [\u] escape is read when it denotes a byte
    ([\u0000] to [\u00ff]).  An object keeps its keys in the order of the
    text, a repeated key keeps its first place and its last value. *)
Module Json.

Local Open Scope char_scope.

(** The double quote, code 34. *)
Abbreviation DQ := (Ascii false true false false false true false false).

Definition hex_digit (n : N) : ascii :=
  match n with
  | 0%N => "0" | 1%N => "1" | 2%N => "2" | 3%N => "3" | 4%N => "4"
  | 5%N => "5" | 6%N => "6" | 7%N => "7" | 8%N => "8" | 9%N => "9"
  | 10%N => "a" | 11%N => "b" | 12%N => "c" | 13%N => "d" | 14%N => "e"
  | _ => "f"
  end.

Definition hex_value (c : ascii) : option N :=
  match c with
  | "0" => Some 0%N | "1" => Some 1%N | "2" => Some 2%N | "3" => Some 3%N
  | "4" => Some 4%N | "5" => Some 5%N | "6" => Some 6%N | "7" => Some 7%N
  | "8" => Some 8%N | "9" => Some 9%N
  | "a" | "A" => Some 10%N | "b" | "B" => Some 11%N
  | "c" | "C" => Some 12%N | "d" | "D" => Some 13%N
  | "e" | "E" => Some 14%N | "f" | "F" => Some 15%N
  | _ => None
  end.

(** QuoteJSONString, one character: the quote, the backslash and the
    control characters are escaped. *)
Definition escape_char (c : ascii) : list ascii :=
  match c with
  | DQ => ["\"; DQ]
  | "\" => ["\"; "\"]
  | "008" => ["\"; "b"]
  | "009" => ["\"; "t"]
  | "010" => ["\"; "n"]
  | "012" => ["\"; "f"]
  | "013" => ["\"; "r"]
  | _ =>
      let n := N_of_ascii c in
      if (n <? 32)%N
      then ["\"; "u"; "0"; "0"; hex_digit (n / 16); hex_digit (n mod 16)]
      else [c]
  end.

Fixpoint escape (s : string) : list ascii :=
  match s with
  | EmptyString => []
  | String c r => escape_char c ++ escape r
  end.

Definition quote (s : string) : list ascii := DQ :: escape s ++ [DQ].

Definition print_int (n : Z) : list ascii :=
  list_ascii_of_string (NilZero.string_of_int (Z.to_int n)).

Fixpoint join (sep : ascii) (parts : list (list ascii)) : list ascii :=
  match parts with
  | [] => []
  | [p] => p
  | p :: r => p ++ sep :: join sep r
  end.

(** SerializeJSONProperty: [None] is the [undefined] that
    [JSON.stringify] returns for [undefined]; inside an array
    [undefined] prints as [null], inside an object the field is left
    out. *)
Fixpoint print (v : value) : option (list ascii) :=
  match v with
  | VUndefined => None
  | VNull => Some ["n"; "u"; "l"; "l"]
  | VBool true => Some ["t"; "r"; "u"; "e"]
  | VBool false => Some ["f"; "a"; "l"; "s"; "e"]
  | VNum n => Some (print_int n)
  | VStr s => Some (quote s)
  | VArr l =>
      Some ("[" :: join ","
               ((fix items (l : list value) : list (list ascii) :=
                   match l with
                   | [] => []
                   | x :: r => default ["n"; "u"; "l"; "l"] (print x) :: items r
                   end) l) ++ ["]"])
  | VObj fs =>
      Some ("{" :: join ","
               ((fix members (fs : list (string * value)) : list (list ascii) :=
                   match fs with
                   | [] => []
                   | (k, x) :: r =>
                       match print x with
                       | Some t => (quote k ++ ":" :: t) :: members r
                       | None => members r
                       end
                   end) fs) ++ ["}"])
  end.

Definition is_ws (c : ascii) : bool :=
  match c with
  | " " | "009" | "010" | "013" => true
  | _ => false
  end.

Fixpoint skip_ws (s : list ascii) : list ascii :=
  match s with
  | c :: r => if is_ws c then skip_ws r else s
  | [] => []
  end.

(** The characters of a string up to its closing quote. *)
Fixpoint parse_chars (s : list ascii) : option (string * list ascii) :=
  match s with
  | [] => None
  | DQ :: r => Some (EmptyString, r)
  | "\" :: e :: r =>
      let cont (c : ascii) (r : list ascii) :=
        match parse_chars r with
        | Some (t, rest) => Some (String c t, rest)
        | None => None
        end in
      match e with
      | DQ => cont DQ r
      | "\" => cont "\" r
      | "/" => cont "/" r
      | "b" => cont "008" r
      | "t" => cont "009" r
      | "n" => cont "010" r
      | "f" => cont "012" r
      | "r" => cont "013" r
      | "u" =>
          match r with
          | h1 :: h2 :: h3 :: h4 :: r' =>
              match hex_value h1, hex_value h2, hex_value h3, hex_value h4 with
              | Some 0%N, Some 0%N, Some a, Some b =>
                  cont (ascii_of_N (16 * a + b)) r'
              | _, _, _, _ => None
              end
          | _ => None
          end
      | _ => None
      end
  | c :: r =>
      if (N_of_ascii c <? 32)%N then None
      else match parse_chars r with
           | Some (t, rest) => Some (String c t, rest)
           | None => None
           end
  end.

Definition is_num_char (c : ascii) : bool :=
  match c with
  | "-" | "0" | "1" | "2" | "3" | "4" | "5" | "6" | "7" | "8" | "9" => true
  | _ => false
  end.

Fixpoint span_num (s : list ascii) : list ascii * list ascii :=
  match s with
  | c :: r =>
      if is_num_char c
      then let '(d, rest) := span_num r in (c :: d, rest)
      else ([], s)
  | [] => ([], [])
  end.

(** An integer in canonical decimal form. *)
Definition parse_int (d : list ascii) : option Z :=
  match NilZero.int_of_string (string_of_list_ascii d) with
  | Some i =>
      let n := Z.of_int i in
      if String.eqb (NilZero.string_of_int (Z.to_int n)) (string_of_list_ascii d)
      then Some n else None
  | None => None
  end.

Section elements.
Variable parse_value : list ascii -> option (value * list ascii).

(** After the first element of an array: [, value]* and the bracket. *)
Fixpoint parse_items (fuel : nat) (acc : list value) (s : list ascii)
  : option (value * list ascii) :=
  match fuel with
  | O => None
  | S fuel =>
      match skip_ws s with
      | "]" :: r => Some (VArr (rev acc), r)
      | "," :: r =>
          match parse_value r with
          | Some (x, r') => parse_items fuel (x :: acc) r'
          | None => None
          end
      | _ => None
      end
  end.

Definition parse_member (s : list ascii)
  : option (string * value * list ascii) :=
  match skip_ws s with
  | DQ :: r =>
      match parse_chars r with
      | Some (k, r1) =>
          match skip_ws r1 with
          | ":" :: r2 =>
              match parse_value r2 with
              | Some (x, r3) => Some (k, x, r3)
              | None => None
              end
          | _ => None
          end
      | None => None
      end
  | _ => None
  end.

(** After the first member of an object. *)
Fixpoint parse_members (fuel : nat) (acc : list (string * value))
  (s : list ascii) : option (value * list ascii) :=
  match fuel with
  | O => None
  | S fuel =>
      match skip_ws s with
      | "}" :: r => Some (VObj acc, r)
      | "," :: r =>
          match parse_member r with
          | Some (k, x, r') => parse_members fuel (obj_set k x acc) r'
          | None => None
          end
      | _ => None
      end
  end.
End elements.

Fixpoint parse_value (fuel : nat) (s : list ascii)
  : option (value * list ascii) :=
  match fuel with
  | O => None
  | S fuel =>
      match skip_ws s with
      | "n" :: "u" :: "l" :: "l" :: r => Some (VNull, r)
      | "t" :: "r" :: "u" :: "e" :: r => Some (VBool true, r)
      | "f" :: "a" :: "l" :: "s" :: "e" :: r => Some (VBool false, r)
      | DQ :: r =>
          match parse_chars r with
          | Some (t, rest) => Some (VStr t, rest)
          | None => None
          end
      | "[" :: r =>
          match skip_ws r with
          | "]" :: r' => Some (VArr [], r')
          | _ =>
              match parse_value fuel r with
              | Some (x, r') => parse_items (parse_value fuel) fuel [x] r'
              | None => None
              end
          end
      | "{" :: r =>
          match skip_ws r with
          | "}" :: r' => Some (VObj [], r')
          | _ =>
              match parse_member (parse_value fuel) r with
              | Some (k, x, r') =>
                  parse_members (parse_value fuel) fuel [(k, x)] r'
              | None => None
              end
          end
      | c :: r =>
          if is_num_char c then
            let '(d, rest) := span_num (c :: r) in
            match parse_int d with
            | Some n => Some (VNum n, rest)
            | None => None
            end
          else None
      | [] => None
      end
  end.

(** [JSON.stringify(v)]; [None] stands for [undefined]. *)
Definition stringify (v : value) : option string :=
  match print v with
  | Some l => Some (string_of_list_ascii l)
  | None => None
  end.

(** [JSON.parse(s)]; [None] stands for the [SyntaxError] it throws. *)
Definition parse (s : string) : option value :=
  let l := list_ascii_of_string s in
  match parse_value (S (List.length l)) l with
  | Some (v, rest) =>
      match skip_ws rest with
      | [] => Some v
      | _ => None
      end
  | None => None
  end.

End Json.



(* ===================================================================== *)
(** ** Conversions of the language *)
(* ===================================================================== *)

(** ToString, as [localStorage.setItem] and [String(_)] apply it.  An
    object without a [toString] of its own prints as [[object Object]]. *)
Fixpoint js_ToString (v : value) : string :=
  match v with
  | VUndefined => "undefined"
  | VNull => "null"
  | VBool true => "true"
  | VBool false => "false"
  | VNum n => string_of_list_ascii (Json.print_int n)
  | VStr s => s
  | VArr l =>
      (fix items (l : list value) : string :=
         match l with
         | [] => ""
         | x :: r =>
             let t := match x with
                      | VUndefined | VNull => ""
                      | _ => js_ToString x
                      end in
             match r with
             | [] => t
             | _ => t +:+ "," +:+ items r
             end
         end) l
  | VObj _ => "[object Object]"
  end.

(** [a === b] where [b] is a string literal. *)
Definition strict_eq_str (a : value) (b : string) : bool :=
  match a with
  | VStr s => String.eqb s b
  | _ => false
  end.

(** [hay.includes(needle)] on strings. *)
Fixpoint includes (needle hay : string) : bool :=
  String.prefix needle hay
  || match hay with
     | EmptyString => false
     | String _ r => includes needle r
     end.

(* ===================================================================== *)
(** ** The world a function runs in *)
(* ===================================================================== *)

(** How a call ends: it returns (the promise resolves) or it throws (the
    promise rejects) with a value. *)
Inductive outcome (A : Type) : Type :=
| Ok (a : A)
| Throw (e : value).
Arguments Ok {A} a.
Arguments Throw {A} e.

(** MSAL's [AccountInfo], an opaque handle for this module. *)
Record AccountInfo : Type := {
  homeAccountId : string;
  username : string;
  name : string
}.

(** MSAL's [AuthenticationResult], the two fields that are read. *)
Record AuthenticationResult : Type := {
  account : option AccountInfo;
  accessToken : string
}.

(** A [PublicClientApplication]: what each of its methods answers. *)
Record MsalApp : Type := {
  msal_initialize : outcome unit;
  msal_handleRedirectPromise : outcome (option AuthenticationResult);
  msal_getAllAccounts : list AccountInfo;
  msal_acquireTokenSilent : AccountInfo -> outcome AuthenticationResult;
  msal_acquireTokenPopup : outcome AuthenticationResult;
  msal_loginRedirect : outcome unit;
  msal_loginPopup : outcome AuthenticationResult;
  msal_logoutPopup : outcome unit
}.

(** Everything a function does to the outside, in the order it does it. *)
Inductive effect : Type :=
| HttpPost (url : string) (body : value)
| DispatchEvent (type : string) (detail : value)
| StorageSet (key : string) (val : string)
| StorageRemove (key : string)
| SetIsAuthenticated (b : bool)
| SetUserData (u : value)
| SetError (e : value)
| SetLoading (b : bool)
| SetMsalInstance
| SetMsalInitialized (b : bool)
| Navigate (href : string)
| Sleep (ms : Z)
| MsalConstruct
| MsalInitialize
| MsalAddEventCallback
| MsalHandleRedirectPromise
| MsalAcquireTokenSilent (a : AccountInfo)
| MsalAcquireTokenPopup
| MsalLoginRedirect
| MsalLoginPopup
| MsalLogoutPopup.

(** [localStorage], the React state of [AuthProvider] (as the setters
    leave it for the next render), whether the provider's listener for
    [nextbi:auth-changed] is registered, and the log of effects. *)
Record World : Type := mkWorld {
  storage : gmap string string;
  s_isAuthenticated : bool;
  s_userData : value;
  s_error : value;
  s_loading : bool;
  s_msalInstance : option MsalApp;
  s_msalInitialized : bool;
  listening : bool;
  trace : list effect
}.

(** The first render: the initial values of the [useState] hooks. *)
Definition initial_world (st : gmap string string) (l : bool) : World :=
  mkWorld st false VNull VNull true None false l [].

Definition M (A : Type) : Type := World -> outcome A * World.

Definition ret {A} (a : A) : M A := fun w => (Ok a, w).

Definition throw {A} (e : value) : M A := fun w => (Throw e, w).

Definition bind {A B} (m : M A) (k : A -> M B) : M B :=
  fun w =>
    match m w with
    | (Ok a, w') => k a w'
    | (Throw e, w') => (Throw e, w')
    end.

(** [try { m } catch (e) { h e }]. *)
Definition try_catch {A} (m : M A) (h : value -> M A) : M A :=
  fun w =>
    match m w with
    | (Ok a, w') => (Ok a, w')
    | (Throw e, w') => h e w'
    end.

(** [try { m } finally { f }]: [f] runs however [m] ends; the outcome of
    [m] stands unless [f] throws. *)
Definition try_finally {A} (m : M A) (f : M unit) : M A :=
  fun w =>
    match m w with
    | (r, w') =>
        match f w' with
        | (Ok _, w'') => (r, w'')
        | (Throw e, w'') => (Throw e, w'')
        end
    end.

(** An external call that has already been decided by the platform. *)
Definition answer {A} (o : outcome A) : M A := fun w => (o, w).

(** A property read that may throw. *)
Definition read (r : value + value) : M value :=
  match r with
  | inl v => ret v
  | inr e => throw e
  end.

Declare Scope js_scope.
Delimit Scope js_scope with js.
Notation "'let*' x := m 'in' k" := (bind m (fun x => k))
  (at level 10, x name, m at level 100, k at level 200) : js_scope.
Notation "m ;; k" := (bind m (fun _ => k))
  (at level 100, k at level 200, right associativity) : js_scope.
Local Open Scope js_scope.

Definition emit (e : effect) : M unit :=
  fun w =>
    (Ok tt,
     mkWorld (storage w) (s_isAuthenticated w) (s_userData w) (s_error w)
       (s_loading w) (s_msalInstance w) (s_msalInitialized w) (listening w)
       (trace w ++ [e])).

Definition with_storage (f : gmap string string -> gmap string string)
  : M unit :=
  fun w =>
    (Ok tt,
     mkWorld (f (storage w)) (s_isAuthenticated w) (s_userData w) (s_error w)
       (s_loading w) (s_msalInstance w) (s_msalInitialized w) (listening w)
       (trace w)).

(** [localStorage.getItem(k)]; [None] is [null]. *)
Definition localStorage_getItem (k : string) : M (option string) :=
  fun w => (Ok (storage w !! k), w).

(** [localStorage.setItem(k, v)]: the value is converted to a string. *)
Definition localStorage_setItem (k : string) (v : string) : M unit :=
  with_storage (insert k v) ;; emit (StorageSet k v).

Definition localStorage_removeItem (k : string) : M unit :=
  with_storage (delete k) ;; emit (StorageRemove k).

(** The [useState] setters. *)
Definition setIsAuthenticated (b : bool) : M unit :=
  (fun w =>
     (Ok tt,
      mkWorld (storage w) b (s_userData w) (s_error w) (s_loading w)
        (s_msalInstance w) (s_msalInitialized w) (listening w) (trace w)))
  ;; emit (SetIsAuthenticated b).

Definition setUserData (u : value) : M unit :=
  (fun w =>
     (Ok tt,
      mkWorld (storage w) (s_isAuthenticated w) u (s_error w) (s_loading w)
        (s_msalInstance w) (s_msalInitialized w) (listening w) (trace w)))
  ;; emit (SetUserData u).

Definition setError (e : value) : M unit :=
  (fun w =>
     (Ok tt,
      mkWorld (storage w) (s_isAuthenticated w) (s_userData w) e (s_loading w)
        (s_msalInstance w) (s_msalInitialized w) (listening w) (trace w)))
  ;; emit (SetError e).

Definition setLoading (b : bool) : M unit :=
  (fun w =>
     (Ok tt,
      mkWorld (storage w) (s_isAuthenticated w) (s_userData w) (s_error w) b
        (s_msalInstance w) (s_msalInitialized w) (listening w) (trace w)))
  ;; emit (SetLoading b).

Definition setMsalInstance (app : MsalApp) : M unit :=
  (fun w =>
     (Ok tt,
      mkWorld (storage w) (s_isAuthenticated w) (s_userData w) (s_error w)
        (s_loading w) (Some app) (s_msalInitialized w) (listening w) (trace w)))
  ;; emit SetMsalInstance.

Definition setMsalInitialized (b : bool) : M unit :=
  (fun w =>
     (Ok tt,
      mkWorld (storage w) (s_isAuthenticated w) (s_userData w) (s_error w)
        (s_loading w) (s_msalInstance w) b (listening w) (trace w)))
  ;; emit (SetMsalInitialized b).

(** [window.location.href = href]. *)
Definition navigate (href : string) : M unit := emit (Navigate href).

(** [process.env], [window.__env], the other properties of [window] and
    [window.location.hostname], as the configuration readers see them.
    [None] is an [env] object that is missing (or falsy). *)
Record ClientEnv : Type := {
  process_env : option (gmap string value);
  window_env : option (gmap string value);
  window_props : gmap string value;
  hostname : string
}.

(** How [axios.post] ends: with a response, of which only the body is
    read, or with an [AxiosError], which has a message and, when the server
    answered, the response with its body. *)
Inductive axios_result : Type :=
| Response (data : value)
| AxiosFailure (message : string) (response_data : option value).

Definition axios_error (message : string) (response_data : option value)
  : value :=
  VObj (("name", VStr "AxiosError")
        :: ("message", VStr message)
        :: match response_data with
           | Some d => [("response", VObj [("data", d)])]
           | None => []
           end).

(** What is outside the module and answers its calls.
    [loginWithAzure] and [getStoredSession] belong to
    [services/loginService], which is not among the sources: they are
    parameters.  [getStoredSession] is taken to read [localStorage] and to
    do nothing else. *)
Record Platform : Type := {
  client_env : ClientEnv;
  axios_post : string -> value -> axios_result;
  msal_new : outcome MsalApp;
  loginWithAzure : AccountInfo -> M value;
  getStoredSession : gmap string string -> value
}.

(* ===================================================================== *)
(** ** services/authService.ts: the Token Store *)
(* ===================================================================== *)

Definition API_URL : string := "http://localhost:3000".
Definition TOKEN_KEY : string := "nextbi_auth_token".
Definition USER_KEY : string := "nextbi_user_data".

(** [JSON.stringify(v)] as a value: a string or [undefined]. *)
Definition JSON_stringify (v : value) : value :=
  match Json.stringify v with
  | Some s => VStr s
  | None => VUndefined
  end.

Definition js_SyntaxError : value :=
  VObj [("name", VStr "SyntaxError"); ("message", VStr "Unexpected token in JSON")].

(** [JSON.parse(s)]. *)
Definition JSON_parse (s : string) : M value :=
  match Json.parse s with
  | Some v => ret v
  | None => throw js_SyntaxError
  end.

Definition getToken : M (option string) :=
  localStorage_getItem TOKEN_KEY.

Definition setToken (token : value) : M unit :=
  localStorage_setItem TOKEN_KEY (js_ToString token).

Definition getUser : M value :=
  let* userStr := localStorage_getItem USER_KEY in
  match userStr with
  | Some s =>
      if negb (String.eqb s "")
      then try_catch (JSON_parse s) (fun _ => ret VNull)
      else ret VNull
  | None => ret VNull
  end.

Definition setUser (user : value) : M unit :=
  localStorage_setItem USER_KEY (js_ToString (JSON_stringify user)).

(** [!!getToken()]. *)
Definition isAuthenticated : M bool :=
  let* token := getToken in
  ret match token with
      | Some s => negb (String.eqb s "")
      | None => false
      end.

Definition getAuthHeaders : M value :=
  let* token := getToken in
  ret match token with
      | Some s =>
          if negb (String.eqb s "")
          then VObj [("Authorization", VStr ("Bearer " +:+ s))]
          else VObj []
      | None => VObj []
      end.

Definition clearAuthData : M unit :=
  localStorage_removeItem TOKEN_KEY ;;
  localStorage_removeItem USER_KEY.

(* ===================================================================== *)
(** ** The change notification bus *)
(* ===================================================================== *)

(** context/AuthContext.tsx, the listener for [nextbi:auth-changed] that
    [AuthProvider] registers on [window]. *)
Definition auth_changed_handler : M unit :=
  try_catch
    (let* storedUser := getUser in
     if truthy storedUser
     then setUserData storedUser ;; setIsAuthenticated true ;; setError VNull
     else setUserData VNull ;; setIsAuthenticated false)
    (fun _ => ret tt).

(** [window.dispatchEvent(new CustomEvent(type, { detail }))]: the
    listeners registered for the type run before the call returns, and what
    a listener throws does not reach the caller.  The only listener of the
    application is the one above. *)
Definition dispatchEvent (type : string) (detail : value) : M unit :=
  emit (DispatchEvent type detail) ;;
  fun w =>
    if listening w && String.eqb type "nextbi:auth-changed"
    then (Ok tt, snd (auth_changed_handler w))
    else (Ok tt, w).

(* ===================================================================== *)
(** ** services/authService.ts: the backend exchange calls *)
(* ===================================================================== *)

(** The argument of [exchangeAzureToken]. *)
Record UserInfo : Type := {
  info_id : string;
  info_displayName : string;
  info_email : string;
  info_photoUrl : value
}.

Section authService.
Variable P : Platform.

(** [await axios.post(url, body)], then [response.data]. *)
Definition axios_post_data (url : string) (body : value) : M value :=
  emit (HttpPost url body) ;;
  match axios_post P url body with
  | Response data => ret data
  | AxiosFailure message response_data =>
      throw (axios_error message response_data)
  end.

(** The body of the POST to [/api/auth/azure]. *)
Definition azure_request (userInfo : UserInfo) : value :=
  VObj [("azureId", VStr (info_id userInfo));
        ("displayName", VStr (info_displayName userInfo));
        ("email", VStr (info_email userInfo));
        ("photoUrl", info_photoUrl userInfo)].

(** The user record that stands in when the response carries none. *)
Definition user_from_info (userInfo : UserInfo) : value :=
  VObj [("id", VStr (info_id userInfo));
        ("displayName", VStr (info_displayName userInfo));
        ("email", VStr (info_email userInfo))].

Definition exchangeAzureToken (userInfo : UserInfo) : M value :=
  try_catch
    (let* data :=
       axios_post_data (API_URL +:+ "/api/auth/azure")
         (azure_request userInfo) in
     let* success := read (prop data "success") in
     let* cond :=
       if truthy success
       then (let* d := read (prop data "data") in read (prop d "token"))
       else ret success in
     if truthy cond then
       let* d := read (prop data "data") in
       let* token := read (prop d "token") in
       let* user := read (prop d "user") in
       let userData := js_or user (user_from_info userInfo) in
       setToken token ;;
       setUser userData ;;
       ret token
     else throw (js_Error "Failed to get backend token"))
    (fun error =>
       (* console.error('Error details:', error.response?.data || ...) *)
       let* _ := read (prop error "response") in
       throw error).

(** The [getClientEnv] that authService.ts, AuthContext.tsx, App.tsx and
    Login.tsx each define. *)
Definition defined (o : option value) : option value :=
  match o with
  | Some VUndefined | None => None
  | Some v => Some v
  end.

Definition getClientEnv (key : string) (fallback : value) : value :=
  let env := client_env P in
  let from_window :=
    match window_env env with
    | Some e =>
        match defined (e !! key) with
        | Some v => Some v
        | None => defined (window_props env !! key)
        end
    | None => defined (window_props env !! key)
    end in
  let from_process :=
    match process_env env with
    | Some e => defined (e !! key)
    | None => None
    end in
  match from_process with
  | Some v => v
  | None =>
      match from_window with
      | Some v => v
      | None => fallback
      end
  end.

(** The body of the POST to [/api/auth/dev]. *)
Definition dev_request (opts : value) : value :=
  VObj [("email",
         js_or (opt_prop opts "email")
           (getClientEnv "REACT_APP_DEV_TEST_EMAIL" (VStr "dev@local.test")));
        ("displayName",
         js_or (opt_prop opts "displayName")
           (getClientEnv "REACT_APP_DEV_DISPLAYNAME" (VStr "Developer")));
        ("avatar", js_or (opt_prop opts "avatar") VNull)].

(** [devLogin(opts)]; [opts] is [undefined] when the argument is left
    out.  The guard [typeof window.dispatchEvent === 'function'] around the
    dispatch holds in a browser. *)
Definition devLogin (opts : value) : M value :=
  try_catch
    (let payload := dev_request opts in
     let* data := axios_post_data (API_URL +:+ "/api/auth/dev") payload in
     let* success := read (prop data "success") in
     let* cond :=
       if truthy success
       then (let* d := read (prop data "data") in ret (opt_prop d "token"))
       else ret success in
     if truthy cond then
       let* d := read (prop data "data") in
       let* token := read (prop d "token") in
       let* user := read (prop d "user") in
       setToken token ;;
       setUser user ;;
       try_catch
         (dispatchEvent "nextbi:auth-changed"
            (VObj [("method", VStr "dev"); ("user", user)]))
         (fun _ => ret tt) ;;
       ret (VObj [("success", VBool true); ("token", token); ("user", user)])
     else ret (VObj [("success", VBool false); ("error", data)]))
    (fun error =>
       let* response := read (prop error "response") in
       let* message := read (prop error "message") in
       ret (VObj [("success", VBool false);
                  ("error",
                   js_or (opt_prop response "data") (js_or message error))])).

End authService.

(* ===================================================================== *)
(** ** context/AuthContext.tsx: the session controller *)
(* ===================================================================== *)

Definition AUTH_METHOD_KEY : string := "nextbi_auth_method".


(** [msg.includes(needle)]: a method of strings and of arrays; on any other
    value [msg.includes] is not a function and the call throws. *)
Definition js_includes (msg : value) (needle : string) : M bool :=
  match msg with
  | VStr s => ret (includes needle s)
  | VArr l => ret (existsb (fun x => strict_eq_str x needle) l)
  | _ =>
      throw (VObj [("name", VStr "TypeError");
                   ("message", VStr "msg.includes is not a function")])
  end.

Definition tenant_mismatch_message : string :=
  "Account not found in tenant. Sign in with an account in the tenant or ask the tenant admin to invite your account as a guest. For local testing enable DEV_AUTH or use an account from the tenant.".

Definition cancelled_message : string :=
  "Sign-in was cancelled or blocked by the browser. Try using the "
  +:+ String Json.DQ "Sign in"
  +:+ String Json.DQ " button again (redirect) or enable Dev sign-in for local testing.".

Definition getFriendlyAuthError (err : value) : M value :=
  let* inner :=
    if truthy err then
      let* message := read (prop err "message") in
      let* error := read (prop err "error") in
      ret (js_or message (js_or error (VStr (js_ToString err))))
    else ret err in
  let msg := js_or inner (VStr "") in
  let* tenant := js_includes msg "AADSTS50020" in
  if tenant then ret (VStr tenant_mismatch_message)
  else
    let* cancelled := js_includes msg "user_cancelled" in
    let* closed :=
      if cancelled then ret true else js_includes msg "Popup window closed" in
    if closed then ret (VStr cancelled_message)
    else if truthy msg then ret msg
    else ret VNull.

Section AuthProvider.
Variable P : Platform.

(** The values of the state variables in the render that created the
    callbacks. *)
Variable msalInstance : option MsalApp.
Variable msalInitialized : bool.

Definition isDevAuthEnabled : bool :=
  if strict_eq_str (getClientEnv P "REACT_APP_DEV_AUTH" (VStr "false")) "true"
  then true
  else
    let host := hostname (client_env P) in
    if String.eqb host "localhost" || String.eqb host "127.0.0.1"
    then true
    else false.

Definition exchangeTokenForJWT (acct : AccountInfo) : M unit :=
  try_catch
    (let* result := loginWithAzure P acct in
     if truthy (opt_prop result "success") then
       let* user := read (prop result "user") in
       setUserData user ;;
       setIsAuthenticated true ;;
       localStorage_setItem AUTH_METHOD_KEY "msal" ;;
       setError VNull ;;
       navigate "/"
     else setError (VStr "Failed to authenticate with backend."))
    (fun _ => setError (VStr "Failed to authenticate with backend.")).

(** The body of [initializeMsal] when developer bypass is enabled. *)
Definition initializeMsal_dev : M unit :=
  let* st := (fun w => (Ok (storage w), w)) in
  let storedSession := getStoredSession P st in
  let* storedUser := getUser in
  if truthy storedSession && truthy storedUser then
    setUserData storedUser ;;
    setIsAuthenticated true ;;
    setLoading false
  else
    let devEmail := getClientEnv P "REACT_APP_DEV_TEST_EMAIL" (VStr "dev@local.test") in
    let devDisplay := getClientEnv P "REACT_APP_DEV_DISPLAYNAME" (VStr "Developer") in
    let* devResult :=
      devLogin P (VObj [("email", devEmail); ("displayName", devDisplay)]) in
    let* success := read (prop devResult "success") in
    if truthy success then
      let* user := read (prop devResult "user") in
      setUserData user ;;
      setIsAuthenticated true ;;
      localStorage_setItem AUTH_METHOD_KEY "dev" ;;
      setLoading false
    else
      setError (VStr "Development login failed") ;;
      setLoading false.

(** The body of [initializeMsal] otherwise. *)
Definition initializeMsal_provider : M unit :=
  if msalInitialized || bool_decide (is_Some msalInstance) then ret tt
  else
    emit MsalConstruct ;;
    let* msalApp := answer (msal_new P) in
    emit MsalInitialize ;;
    answer (msal_initialize msalApp) ;;
    setMsalInstance msalApp ;;
    setMsalInitialized true ;;
    emit MsalAddEventCallback ;;
    emit MsalHandleRedirectPromise ;;
    let* redirectResponse := answer (msal_handleRedirectPromise msalApp) in
    match redirectResponse with
    | Some {| account := Some acct |} => exchangeTokenForJWT acct
    | _ =>
        let* st := (fun w => (Ok (storage w), w)) in
        let storedSession := getStoredSession P st in
        let* storedUser := getUser in
        if truthy storedSession && truthy storedUser then
          setUserData storedUser ;;
          setIsAuthenticated true
        else
          match msal_getAllAccounts msalApp with
          | acct :: _ => exchangeTokenForJWT acct
          | [] => ret tt
          end
    end.

Definition initializeMsal : M unit :=
  try_finally
    (try_catch
       (if isDevAuthEnabled then initializeMsal_dev
        else initializeMsal_provider)
       (fun _ => setError (VStr "Failed to initialize authentication.")))
    (setLoading false).


(** The polling loop of [login]: [msalInitialized] is the value the
    closure captured, the loop does not see a later render. *)
Fixpoint wait_for_msal (n : nat) : M unit :=
  match n with
  | O => ret tt
  | S n =>
      emit (Sleep 300) ;;
      if msalInitialized then ret tt else wait_for_msal n
  end.

(** [setError(friendly || (err?.message || "Login failed."))]. *)
Definition report_login_error (err : value) : M unit :=
  let* friendly := getFriendlyAuthError err in
  setError (js_or friendly (js_or (opt_prop err "message") (VStr "Login failed."))).

Definition login_dev : M unit :=
  setLoading true ;;
  setError VNull ;;
  let devEmail := getClientEnv P "REACT_APP_DEV_TEST_EMAIL" (VStr "dev@local.test") in
  let devDisplay := getClientEnv P "REACT_APP_DEV_DISPLAYNAME" (VStr "Developer") in
  let* result :=
    devLogin P (VObj [("email", devEmail); ("displayName", devDisplay)]) in
  let* success := read (prop result "success") in
  (if truthy success then
     let* user := read (prop result "user") in
     setUserData user ;;
     setIsAuthenticated true ;;
     localStorage_setItem AUTH_METHOD_KEY "dev" ;;
     setError VNull ;;
     navigate "/"
   else setError (VStr "Development login failed")) ;;
  setLoading false.

Definition login_interactive (app : MsalApp) : M unit :=
  setError VNull ;;
  setLoading true ;;
  match msal_getAllAccounts app with
  | acct :: _ => exchangeTokenForJWT acct
  | [] =>
      try_catch
        (emit MsalLoginRedirect ;;
         answer (msal_loginRedirect app))
        (fun innerErr =>
           try_catch
             (emit MsalLoginPopup ;;
              let* result := answer (msal_loginPopup app) in
              match account result with
              | Some acct => exchangeTokenForJWT acct
              | None => setError (VStr "No account information returned.")
              end)
             (fun popupErr => report_login_error popupErr))
  end.

Definition login_provider : M unit :=
  match msalInstance with
  | None =>
      setError (VStr "Authentication not initialized yet. Please wait a moment.")
  | Some app =>
      if negb msalInitialized then
        wait_for_msal 10 ;;
        if negb msalInitialized
        then setError (VStr "Authentication not initialized")
        else login_interactive app
      else login_interactive app
  end.

Definition login : M unit :=
  try_finally
    (try_catch
       (if isDevAuthEnabled then login_dev else login_provider)
       (fun err => report_login_error err))
    (setLoading false).

Definition logout : M unit :=
  try_finally
    (try_catch
       (let* method := localStorage_getItem AUTH_METHOD_KEY in
        clearAuthData ;;
        setIsAuthenticated false ;;
        setUserData VNull ;;
        match method, msalInstance with
        | Some m, Some app =>
            if String.eqb m "msal"
            then emit MsalLogoutPopup ;; answer (msal_logoutPopup app)
            else ret tt
        | _, _ => ret tt
        end)
       (fun _ => ret tt))
    (navigate "/login").

End AuthProvider.
(** A value that [JSON.stringify] prints without loss: no [undefined]
    anywhere inside it, and no object with a repeated key. *)
Fixpoint distinct_keys (ks : list string) : bool :=
  match ks with
  | [] => true
  | k :: r => negb (existsb (String.eqb k) r) && distinct_keys r
  end.

Fixpoint json_serializable (v : value) : bool :=
  match v with
  | VUndefined => false
  | VNull | VBool _ | VNum _ | VStr _ => true
  | VArr l => forallb json_serializable l
  | VObj fs =>
      distinct_keys (map fst fs)
      && forallb (fun kv => json_serializable (snd kv)) fs
  end.


(** The text after a printed number must not go on with a digit or a
    sign. *)
Definition no_num_start (rest : list ascii) : bool :=
  match rest with
  | c :: _ => negb (Json.is_num_char c)
  | [] => true
  end.

(** The characters a printed value can start with. *)
Definition is_value_start (c : ascii) : bool :=
  match c with
  | "n" | "t" | "f" | "[" | "{" => true
  | Json.DQ => true
  | _ => Json.is_num_char c
  end%char.

(** The text of an array element, and of the elements after the first. *)
Definition elem_text (x : value) : list ascii :=
  default ["n"; "u"; "l"; "l"]%char (Json.print x).

Definition tail_text (ts : list (list ascii)) : list ascii :=
  concat (map (fun t => ","%char :: t) ts).

(** The text of an object member, and the members that are printed. *)
Definition member_text (kv : string * value) : option (list ascii) :=
  match Json.print (snd kv) with
  | Some t => Some (Json.quote (fst kv) ++ ":"%char :: t)
  | None => None
  end.

(** The text of a member whose value is printed. *)
Definition member_line (kv : string * value) : list ascii :=
  Json.quote (fst kv) ++ ":"%char :: elem_text (snd kv).

(* ===================================================================== *)
(** ** Vocabulary of the statements *)
(* ===================================================================== *)

(** The store holds a non-empty session token. *)
Definition store_has_token (st : gmap string string) : bool :=
  match st !! TOKEN_KEY with
  | Some s => negb (String.eqb s "")
  | None => false
  end.

(** The user record the store holds: what is under [USER_KEY], parsed;
    [null] when the key is absent or empty or its text is not JSON. *)
Definition stored_user (st : gmap string string) : value :=
  match st !! USER_KEY with
  | Some s =>
      if negb (String.eqb s "") then default VNull (Json.parse s) else VNull
  | None => VNull
  end.

(** The store after [setToken(token); setUser(user)]. *)
Definition store_session (token user : value) (st : gmap string string)
  : gmap string string :=
  <[USER_KEY := js_ToString (JSON_stringify user)]>
    (<[TOKEN_KEY := js_ToString token]> st).

(** The two writes of [setToken(token); setUser(user)] in the log. *)
Definition session_writes (token user : value) : list effect :=
  [StorageSet TOKEN_KEY (js_ToString token);
   StorageSet USER_KEY (js_ToString (JSON_stringify user))].

Definition is_dispatch (e : effect) : bool :=
  match e with
  | DispatchEvent _ _ => true
  | _ => false
  end.

Definition is_post (e : effect) : bool :=
  match e with
  | HttpPost _ _ => true
  | _ => false
  end.

Definition is_msal (e : effect) : bool :=
  match e with
  | MsalConstruct | MsalInitialize | MsalAddEventCallback
  | MsalHandleRedirectPromise | MsalAcquireTokenSilent _
  | MsalAcquireTokenPopup | MsalLoginRedirect | MsalLoginPopup
  | MsalLogoutPopup | SetMsalInstance | SetMsalInitialized _ => true
  | _ => false
  end.

(** The backend answered the exchange with [success] and a token. *)
Definition exchange_succeeded (r : axios_result) : bool :=
  match r with
  | Response data =>
      truthy (opt_prop data "success")
      && truthy (opt_prop (opt_prop data "data") "token")
  | AxiosFailure _ _ => false
  end.

(** The token and the user record of a response body. *)
Definition response_token (data : value) : value :=
  opt_prop (opt_prop data "data") "token".

Definition response_user (data : value) : value :=
  opt_prop (opt_prop data "data") "user".

Definition azure_url : string := API_URL +:+ "/api/auth/azure".
Definition dev_url : string := API_URL +:+ "/api/auth/dev".

(** The world after a dispatch of [nextbi:auth-changed]: the listener has
    run if it is registered. *)
Definition after_dispatch (w : World) : World :=
  if listening w then snd (auth_changed_handler w) else w.

(** The world after the request alone. *)
Definition after_post (url : string) (body : value) (w : World) : World :=
  mkWorld (storage w) (s_isAuthenticated w) (s_userData w) (s_error w)
    (s_loading w) (s_msalInstance w) (s_msalInitialized w) (listening w)
    (trace w ++ [HttpPost url body]).

(* ===================================================================== *)
(** ** Sample inputs *)
(* ===================================================================== *)

(** Modelled from the spec: [getStoredSession] of [services/loginService]
    is not among the sources; the Token Store's [get()] "returns the
    persisted token or nothing". *)
Definition stored_session_token (st : gmap string string) : value :=
  match st !! TOKEN_KEY with
  | Some s => VStr s
  | None => VNull
  end.

Definition sample_env (host : string) : ClientEnv :=
  {| process_env := None; window_env := None; window_props := ∅;
     hostname := host |}.

(** A platform on the given host whose backend answers every POST with
    [answer]; MSAL cannot be constructed and [loginWithAzure] reports a
    failure. *)
Definition sample_platform (host : string) (answer : axios_result) : Platform :=
  {| client_env := sample_env host;
     axios_post := fun _ _ => answer;
     msal_new := Throw (js_Error "no MSAL");
     loginWithAzure := fun _ => ret (VObj [("success", VBool false)]);
     getStoredSession := stored_session_token |}.

(** A page on [localhost], where developer bypass is enabled, and a page
    on another host, where it is not; the backend refuses. *)
Definition dev_platform : Platform :=
  sample_platform "localhost"
    (Response (VObj [("success", VBool false); ("error", VStr "boom")])).

Definition provider_platform : Platform :=
  sample_platform "bi.example.org"
    (Response (VObj [("success", VBool false); ("error", VStr "boom")])).

Definition sample_info : UserInfo :=
  {| info_id := "a-1"; info_displayName := "Ada"; info_email := "ada@example.org";
     info_photoUrl := VNull |}.

Definition sample_user : value :=
  VObj [("id", VNum 1); ("displayName", VStr "Ada")].

(** [{ success: true, data: { token: "jwt", user: { id: 1, ... } } }] *)
Definition success_body : value :=
  VObj [("success", VBool true);
        ("data", VObj [("token", VStr "jwt"); ("user", sample_user)])].

(** [{ success: true, data: { token: "jwt" } }] *)
Definition success_body_without_user : value :=
  VObj [("success", VBool true); ("data", VObj [("token", VStr "jwt")])].

(** [{ success: false, error: "boom" }] *)
Definition refusal_fields : list (string * value) :=
  [("success", VBool false); ("error", VStr "boom")].

Definition refusal_body : value := VObj refusal_fields.

(** A store that holds a session of the provider. *)
Definition msal_session_store : gmap string string :=
  <[AUTH_METHOD_KEY := "msal"]>
    (<[USER_KEY := "{}"]> (<[TOKEN_KEY := "abc"]> ∅)).

(** A store with a token and no user record, and one with a user record
    and no token. *)
Definition token_only_store : gmap string string :=
  <[TOKEN_KEY := "abc"]> ∅.

Definition user_only_store : gmap string string :=
  <[USER_KEY := js_ToString (JSON_stringify sample_user)]> ∅.

(** A page on [localhost] whose backend answers the exchange with a
    token and a user. *)
Definition answering_platform : Platform :=
  sample_platform "localhost" (Response success_body).

(** The store after [setToken("abc"); setUser({ id: 1, ... })]. *)
Definition sample_session_store : gmap string string :=
  store_session (VStr "abc") sample_user ∅.

Definition sample_account : AccountInfo :=
  {| homeAccountId := "home-1"; username := "ada@example.org"; name := "Ada" |}.

(** An MSAL instance with one cached account; every interactive call is
    rejected and the silent acquisition answers [silent]. *)
Definition sample_app (silent : outcome AuthenticationResult)
  (popup : outcome AuthenticationResult) : MsalApp :=
  {| msal_initialize := Ok tt;
     msal_handleRedirectPromise := Ok None;
     msal_getAllAccounts := [sample_account];
     msal_acquireTokenSilent := fun _ => silent;
     msal_acquireTokenPopup := popup;
     msal_loginRedirect := Throw (js_Error "redirect failed");
     msal_loginPopup := Throw (js_Error "popup closed");
     msal_logoutPopup := Throw (js_Error "sign-out rejected") |}.

Definition rejecting_app : MsalApp :=
  sample_app (Throw (js_Error "no token")) (Throw (js_Error "popup closed")).

(** The world after the given effects, nothing else changed. *)
Definition after_effects (w : World) (t : list effect) : World :=
  mkWorld (storage w) (s_isAuthenticated w) (s_userData w) (s_error w)
    (s_loading w) (s_msalInstance w) (s_msalInitialized w) (listening w)
    (trace w ++ t).


Definition token_result (t : string) : AuthenticationResult :=
  {| account := Some sample_account; accessToken := t |}.

(** The identity that startup and [login] hand to [devLogin]: the
    configured email and display name, or their defaults. *)
Definition default_dev_identity (P : Platform) : value :=
  VObj [("email", getClientEnv P "REACT_APP_DEV_TEST_EMAIL" (VStr "dev@local.test"));
        ("displayName", getClientEnv P "REACT_APP_DEV_DISPLAYNAME" (VStr "Developer"))].

(** The store holds a session: a stored session and a stored user record,
    as startup tests them. *)
Definition session_stored (P : Platform) (st : gmap string string) : bool :=
  truthy (getStoredSession P st) && truthy (stored_user st).

(* ===================================================================== *)
(** ** App.tsx: the developer flag, the seeding effect, the route guards *)
(* ===================================================================== *)

Section App.
Variable P : Platform.

(** [const DEV_AUTH = getClientEnv('REACT_APP_DEV_AUTH', 'false') === 'true']. *)
Definition DEV_AUTH : bool :=
  strict_eq_str (getClientEnv P "REACT_APP_DEV_AUTH" (VStr "false")) "true".

(** The effect [App] runs on mount: with [DEV_AUTH] on and no token in the
    store it asks the backend for a developer session. *)
Definition seed_dev_session : M unit :=
  if negb DEV_AUTH then ret tt
  else
    try_catch
      (let* existing := getToken in
       match existing with
       | Some (String _ _) => ret tt
       | _ =>
           let devEmail := getClientEnv P "REACT_APP_DEV_TEST_EMAIL" (VStr "dev@local.test") in
           let devDisplay := getClientEnv P "REACT_APP_DEV_DISPLAYNAME" (VStr "Developer") in
           let* res :=
             devLogin P (VObj [("email", devEmail); ("displayName", devDisplay)]) in
           let* _ := read (prop res "success") in
           ret tt
       end)
      (fun _ => ret tt).

End App.

(** What a route element renders. *)
Inductive element : Type :=
| Spinner
| LoginPage
| LayoutPage
| NavigateTo (to : string).

(** The element of the route [/login]. *)
Definition login_route (isAuthenticated DEV_AUTH : bool) : element :=
  if negb isAuthenticated && negb DEV_AUTH then LoginPage else NavigateTo "/".

(** The element of the route [/], which wraps the protected pages. *)
Definition root_route (isAuthenticated DEV_AUTH : bool) : element :=
  if isAuthenticated || DEV_AUTH then LayoutPage else NavigateTo "/login".

(** What [App] renders at [/login] ([at_login]) or at a protected path:
    the spinner while [loading], else the element of the route. *)
Definition App_render (loading isAuthenticated DEV_AUTH at_login : bool)
  : element :=
  if loading then Spinner
  else if at_login then login_route isAuthenticated DEV_AUTH
  else root_route isAuthenticated DEV_AUTH.

(* ===================================================================== *)
(** ** pages/Login.tsx: the developer sign-in button *)
(* ===================================================================== *)

(** What [onDevSignIn] leaves behind: the last value given to
    [setDevError] and whether [navigate('/')] was called. *)
Record DevSignIn : Type := {
  devError : value;
  navigated : bool
}.

Definition onDevSignIn (P : Platform) : M DevSignIn :=
  try_catch
    (let email := getClientEnv P "REACT_APP_DEV_TEST_EMAIL" (VStr "dev@local.test") in
     let displayName := getClientEnv P "REACT_APP_DEV_DISPLAYNAME" (VStr "Developer") in
     let* res :=
       devLogin P (VObj [("email", email); ("displayName", displayName)]) in
     let* success := read (prop res "success") in
     if truthy success
     then ret {| devError := VNull; navigated := true |}
     else
       let* error := read (prop res "error") in
       ret {| devError :=
                js_or (opt_prop error "message")
                  (js_or (JSON_stringify error) (VStr "Dev login failed"));
              navigated := false |})
    (fun err =>
       ret {| devError :=
                js_or (opt_prop err "message")
                  (VStr "Unknown error during dev sign-in");
              navigated := false |}).

(** [const DEV_AUTH_ENABLED = getClientEnv('REACT_APP_DEV_AUTH', 'false') === 'true'],
    which guards the button [Dev sign in (test)] of the login page. *)
Definition DEV_AUTH_ENABLED (P : Platform) : bool :=
  strict_eq_str (getClientEnv P "REACT_APP_DEV_AUTH" (VStr "false")) "true".

(** [(error && error.includes('tenant') || error?.includes('AADSTS50020'))],
    the condition of the block with the tenant guidance, as a boolean.  A
    value without [includes] that is not [null] or [undefined] makes the
    render throw. *)
Definition tenant_guidance_shown (error : value) : outcome bool :=
  match error with
  | VUndefined | VNull => Ok false
  | VStr s =>
      Ok ((negb (String.eqb s "") && includes "tenant" s)
          || includes "AADSTS50020" s)
  | VArr l =>
      Ok (existsb (fun x => strict_eq_str x "tenant") l
          || existsb (fun x => strict_eq_str x "AADSTS50020") l)
  | _ =>
      Throw (VObj [("name", VStr "TypeError");
                   ("message", VStr "error.includes is not a function")])
  end.

(* ===================================================================== *)
(** ** Vocabulary of the further statements *)
(* ===================================================================== *)

(** The account a redirect response carries, if any. *)
Definition redirect_account (response : option AuthenticationResult)
  : option AccountInfo :=
  match response with
  | Some r => account r
  | None => None
  end.

(** The world once MSAL is constructed and initialized and the redirect
    response has been asked for. *)
Definition after_msal_startup (app : MsalApp) (w : World) : World :=
  mkWorld (storage w) (s_isAuthenticated w) (s_userData w) (s_error w)
    (s_loading w) (Some app) true (listening w)
    (trace w ++ [MsalConstruct; MsalInitialize; SetMsalInstance;
                 SetMsalInitialized true; MsalAddEventCallback;
                 MsalHandleRedirectPromise]).

(** The world after a failed startup: the error is set, [loading] is
    [false], and the given effects came before. *)
Definition after_failed_startup (w : World) (instance : option MsalApp)
  (initialized : bool) (t : list effect) : World :=
  mkWorld (storage w) (s_isAuthenticated w) (s_userData w)
    (VStr "Failed to initialize authentication.") false
    instance initialized (listening w)
    (trace w ++ t ++ [SetError (VStr "Failed to initialize authentication.");
                      SetLoading false]).

(** The world after [setLoading(false)]. *)
Definition loading_done (w : World) : World :=
  mkWorld (storage w) (s_isAuthenticated w) (s_userData w) (s_error w) false
    (s_msalInstance w) (s_msalInitialized w) (listening w)
    (trace w ++ [SetLoading false]).

(** A page off [localhost] where MSAL can be constructed and gives [app];
    [loginWithAzure] answers [exchanged] and does nothing else. *)
Definition msal_platform (app : MsalApp) (exchanged : outcome value) : Platform :=
  {| client_env := sample_env "bi.example.org";
     axios_post := fun _ _ => Response refusal_body;
     msal_new := Ok app;
     loginWithAzure := fun _ => answer exchanged;
     getStoredSession := stored_session_token |}.

(** An MSAL instance that starts and has neither a redirect response nor
    a cached account; its [initialize()] answers [started]. *)
Definition fresh_app (started : outcome unit) : MsalApp :=
  {| msal_initialize := started;
     msal_handleRedirectPromise := Ok None;
     msal_getAllAccounts := [];
     msal_acquireTokenSilent := fun _ => Throw (js_Error "no token");
     msal_acquireTokenPopup := Throw (js_Error "popup closed");
     msal_loginRedirect := Ok tt;
     msal_loginPopup := Throw (js_Error "popup closed");
     msal_logoutPopup := Ok tt |}.

(** The error that [msg.includes(...)] throws when [msg] is neither a
    string nor an array. *)
Definition includes_TypeError : value :=
  VObj [("name", VStr "TypeError");
        ("message", VStr "msg.includes is not a function")].

(** The text that [getFriendlyAuthError] classifies: the [message] of the
    error, else its [error], else the error as a string; the empty string
    for a falsy error. *)
Definition auth_error_text (err : value) : value :=
  if truthy err
  then js_or
         (js_or (opt_prop err "message")
            (js_or (opt_prop err "error") (VStr (js_ToString err))))
         (VStr "")
  else VStr "".

(** The message for a text that is a string. *)
Definition classify_text (m : string) : value :=
  if includes "AADSTS50020" m then VStr tenant_mismatch_message
  else if includes "user_cancelled" m || includes "Popup window closed" m
       then VStr cancelled_message
       else if negb (String.eqb m "") then VStr m else VNull.

(** How a [login] can end: with a non-empty error; authenticated, with
    the error cleared; or, the redirect of [app] accepted, with the error
    cleared and the session as it was in [w]. *)
Definition ends_with_error (w' : World) : Prop :=
  truthy (s_error w') = true.

Definition ends_authenticated (w' : World) : Prop :=
  s_isAuthenticated w' = true /\ s_error w' = VNull.

Definition handed_to_redirect (app : MsalApp) (w w' : World) : Prop :=
  msal_getAllAccounts app = []
  /\ msal_loginRedirect app = Ok tt
  /\ s_error w' = VNull
  /\ storage w' = storage w
  /\ s_isAuthenticated w' = s_isAuthenticated w.

(** A guarded block that resolves in a world where [Q] holds, or throws
    the [TypeError] of [msg.includes] and nothing else. *)
Definition settles (Q : World -> Prop) (m : M unit) (w : World) : Prop :=
  (exists w1, m w = (Ok tt, w1) /\ Q w1)
  \/ (exists w1, m w = (Throw includes_TypeError, w1)).

(** The world when [login] has cleared the error, set [loading] and gone
    through the given MSAL calls. *)
Definition login_prompted (w : World) (t : list effect) : World :=
  mkWorld (storage w) (s_isAuthenticated w) (s_userData w) VNull true
    (s_msalInstance w) (s_msalInitialized w) (listening w)
    (trace w ++ SetError VNull :: SetLoading true :: t).

Definition is_navigate (e : effect) : bool :=
  match e with
  | Navigate _ => true
  | _ => false
  end.

(** The world after a [login] that only failed: the error is set and
    [loading] is [false], after the given effects. *)
Definition login_failed (w : World) (message : string) (t : list effect)
  : World :=
  mkWorld (storage w) (s_isAuthenticated w) (s_userData w) (VStr message)
    false (s_msalInstance w) (s_msalInitialized w) (listening w)
    (trace w ++ t ++ [SetError (VStr message); SetLoading false]).

(** An MSAL instance without a cached account whose redirect and popup
    are both rejected. *)
Definition blocked_app : MsalApp :=
  {| msal_initialize := Ok tt;
     msal_handleRedirectPromise := Ok None;
     msal_getAllAccounts := [];
     msal_acquireTokenSilent := fun _ => Throw (js_Error "no token");
     msal_acquireTokenPopup := Throw (js_Error "popup closed");
     msal_loginRedirect := Throw (js_Error "redirect failed");
     msal_loginPopup := Throw (js_Error "Popup window closed");
     msal_logoutPopup := Ok tt |}.

(** Whether the button [Dev sign in (test)] is on the screen at [/login]:
    [App] renders the login page there and the page shows the button. *)
Definition dev_button_on_screen (P : Platform) (loading isAuthenticated : bool)
  : bool :=
  match App_render loading isAuthenticated (DEV_AUTH P) true with
  | LoginPage => DEV_AUTH_ENABLED P
  | _ => false
  end.

(** A page off [localhost] where [process.env] has the flag but as
    [undefined], and [window.__env] sets it to ["true"]. *)
Definition layered_env : ClientEnv :=
  {| process_env := Some (<["REACT_APP_DEV_AUTH" := VUndefined]> ∅);
     window_env := Some (<["REACT_APP_DEV_AUTH" := VStr "true"]> ∅);
     window_props := ∅;
     hostname := "bi.example.org" |}.

Definition layered_platform : Platform :=
  {| client_env := layered_env;
     axios_post := fun _ _ => Response refusal_body;
     msal_new := Throw (js_Error "no MSAL");
     loginWithAzure := fun _ => ret (VObj [("success", VBool false)]);
     getStoredSession := stored_session_token |}.

(** A store whose user record is not JSON. *)
Definition corrupt_user_store : gmap string string :=
  <[USER_KEY := "{oops"]> ∅.

(** An MSAL instance without a cached account whose redirect is rejected
    and whose popup resolves with an account. *)
Definition popup_app : MsalApp :=
  {| msal_initialize := Ok tt;
     msal_handleRedirectPromise := Ok None;
     msal_getAllAccounts := [];
     msal_acquireTokenSilent := fun _ => Throw (js_Error "no token");
     msal_acquireTokenPopup := Throw (js_Error "popup closed");
     msal_loginRedirect := Throw (js_Error "redirect failed");
     msal_loginPopup := Ok (token_result "fresh");
     msal_logoutPopup := Ok tt |}.
(* ===================================================================== *)
(** * Properties *)
(* ===================================================================== *)

Module JsonFacts.
Import Json.
Local Open Scope char_scope.

Lemma parse_chars_escape_char (c : ascii) (r : list ascii) :
  parse_chars (escape_char c ++ r) =
  match parse_chars r with
  | Some (t, rest) => Some (String c t, rest)
  | None => None
  end.
Proof.
  destruct c as [[] [] [] [] [] [] [] []]; reflexivity.
Qed.

Lemma parse_chars_escape (s : string) (rest : list ascii) :
  parse_chars (escape s ++ DQ :: rest) = Some (s, rest).
Proof.
  induction s as [|c s IH]; [reflexivity|].
  cbn [escape]. rewrite <- app_assoc, parse_chars_escape_char, IH.
  reflexivity.
Qed.

(** *** Numbers *)

Lemma uint_chars (d : Decimal.uint) :
  forallb is_num_char (list_ascii_of_string (NilEmpty.string_of_uint d)) = true.
Proof. induction d; cbn; auto. Qed.

Lemma print_int_chars (n : Z) : forallb is_num_char (print_int n) = true.
Proof.
  unfold print_int.
  destruct (Z.to_int n) as [d|d]; cbn.
  - destruct d; try apply uint_chars. reflexivity.
  - destruct d; try apply uint_chars. reflexivity.
Qed.

Lemma print_int_start (n : Z) :
  exists c r, print_int n = c :: r /\ is_num_char c = true.
Proof.
  pose proof (print_int_chars n) as H. unfold print_int in *.
  destruct (Z.to_int n) as [d|d] eqn:Hd.
  - destruct n as [|p|p]; cbn in Hd; try discriminate.
    + injection Hd as <-. cbn. eauto.
    + injection Hd as <-.
      pose proof (DecimalPos.Unsigned.to_uint_nonnil p) as Hn.
      destruct (Pos.to_uint p); try done; cbn in *; eauto.
  - cbn. eauto.
Qed.

Lemma span_num_app (d rest : list ascii) :
  forallb is_num_char d = true -> no_num_start rest = true ->
  span_num (d ++ rest) = (d, rest).
Proof.
  intros Hd Hr. induction d as [|c d IH]; cbn.
  - destruct rest as [|c r]; [done|]. cbn in *.
    by destruct (is_num_char c).
  - cbn in Hd. apply andb_prop in Hd as [Hc Hd].
    rewrite Hc, (IH Hd). done.
Qed.

Lemma to_int_not_nil (n : Z) :
  Z.to_int n <> Decimal.Pos Decimal.Nil /\ Z.to_int n <> Decimal.Neg Decimal.Nil.
Proof.
  destruct n as [|p|p]; cbn; split; try discriminate;
    intros [= H]; by apply (DecimalPos.Unsigned.to_uint_nonnil p).
Qed.

Lemma parse_int_print_int (n : Z) : parse_int (print_int n) = Some n.
Proof.
  unfold parse_int, print_int.
  rewrite string_of_list_ascii_of_string.
  destruct (to_int_not_nil n) as [Hp Hn].
  rewrite (NilZero.isi _ Hp Hn). cbn zeta.
  rewrite DecimalZ.of_to. by rewrite String.eqb_refl.
Qed.

(** *** The first character of a printed value *)

Lemma num_char_is_value_start (c : ascii) :
  is_num_char c = true -> is_value_start c = true.
Proof. destruct c as [[] [] [] [] [] [] [] []]; cbn; done. Qed.

Lemma print_start (v : value) (t : list ascii) :
  print v = Some t -> exists c r, t = c :: r /\ is_value_start c = true.
Proof.
  destruct v as [| |[]|n|s|l|fs]; cbn; intros [= <-]; eauto.
  destruct (print_int_start n) as (c & r & -> & Hc).
  eauto using num_char_is_value_start.
Qed.

Lemma parse_value_num (fuel : nat) (c : ascii) (r : list ascii) :
  is_num_char c = true ->
  parse_value (S fuel) (c :: r) =
    let '(d, rest) := span_num (c :: r) in
    match parse_int d with
    | Some n => Some (VNum n, rest)
    | None => None
    end.
Proof.
  destruct c as [[] [] [] [] [] [] [] []]; cbn [is_num_char];
    try discriminate; intros _; reflexivity.
Qed.

End JsonFacts.

Module JsonRoundTrip.
Import Json JsonFacts.
Local Open Scope char_scope.

(** *** The printed text of arrays and objects *)

Lemma print_arr (l : list value) :
  print (VArr l) = Some ("[" :: join "," (map elem_text l) ++ ["]"]).
Proof.
  reflexivity.
Qed.

Lemma print_obj (fs : list (string * value)) :
  print (VObj fs) = Some ("{" :: join "," (omap member_text fs) ++ ["}"]).
Proof.
  cbn [print]. do 4 f_equal.
  induction fs as [|[k x] r IH]; [done|]. cbn [omap list_omap].
  unfold member_text at 1. cbn [fst snd].
  destruct (print x); by rewrite <- IH.
Qed.

Lemma join_cons (t : list ascii) (ts : list (list ascii)) :
  join "," (t :: ts) = t ++ tail_text ts.
Proof.
  revert t. induction ts as [|u ts IH]; intros t.
  - cbn. by rewrite app_nil_r.
  - change (join "," (t :: u :: ts)) with (t ++ "," :: join "," (u :: ts)).
    rewrite IH. reflexivity.
Qed.

Lemma tail_text_cons (t : list ascii) (ts : list (list ascii)) :
  tail_text (t :: ts) = "," :: t ++ tail_text ts.
Proof. reflexivity. Qed.

Lemma tail_text_length (ts : list (list ascii)) :
  (List.length ts <= List.length (tail_text ts))%nat.
Proof.
  induction ts as [|t ts IH]; [done|].
  rewrite tail_text_cons. cbn. rewrite length_app. lia.
Qed.

Lemma tail_text_member (t : list ascii) (ts : list (list ascii)) :
  In t ts -> (List.length t < List.length (tail_text ts))%nat.
Proof.
  induction ts as [|u ts IH]; [done|].
  rewrite tail_text_cons. cbn [In List.length]. rewrite length_app.
  intros [->|Hin]; [lia|]. specialize (IH Hin). lia.
Qed.

Lemma no_num_start_tail (ts : list (list ascii)) (c : ascii) (rest : list ascii) :
  is_num_char c = false ->
  no_num_start (tail_text ts ++ c :: rest) = true.
Proof. intros Hc. destruct ts; cbn; [by rewrite Hc | done]. Qed.

Lemma quote_app (k : string) (rest : list ascii) :
  quote k ++ rest = DQ :: escape k ++ DQ :: rest.
Proof. unfold quote. cbn. by rewrite <- app_assoc. Qed.

(** *** Keys *)

Lemma existsb_eqb_In (k : string) (ks : list string) :
  existsb (String.eqb k) ks = true <-> In k ks.
Proof.
  rewrite existsb_exists. split.
  - intros (k' & Hin & ->%String.eqb_eq). done.
  - intros Hin. exists k. by rewrite String.eqb_refl.
Qed.

Lemma distinct_keys_NoDup (ks : list string) :
  distinct_keys ks = true -> List.NoDup ks.
Proof.
  induction ks as [|k ks IH]; cbn; [constructor|].
  intros [Hk Hks]%andb_prop. constructor; [|by apply IH].
  intros Hin%existsb_eqb_In. by rewrite Hin in Hk.
Qed.

Lemma obj_set_fresh (k : string) (x : value) (acc : list (string * value)) :
  ~ In k (map fst acc) -> obj_set k x acc = acc ++ [(k, x)].
Proof.
  induction acc as [|[k' x'] acc IH]; [done|]. cbn. intros Hn.
  destruct (String.eqb_spec k k') as [->|_]; [tauto|].
  rewrite IH; [done|tauto].
Qed.

(** *** Parsing what was printed *)

(** Printing [v] gives a text, and parsing that text, whatever follows it,
    gives [v] back and stops where the text ends. *)
Definition reads_back (v : value) : Prop :=
  json_serializable v = true ->
  exists t,
    print v = Some t
    /\ forall fuel rest,
         (List.length t < fuel)%nat -> no_num_start rest = true ->
         parse_value fuel (t ++ rest) = Some (v, rest).

Lemma reads_back_text (v : value) (t : list ascii) (fuel : nat)
  (rest : list ascii) :
  reads_back v -> json_serializable v = true -> elem_text v = t ->
  (List.length t < fuel)%nat -> no_num_start rest = true ->
  print v = Some t /\ parse_value fuel (t ++ rest) = Some (v, rest).
Proof.
  intros Hv Hs <- Hf Hr. destruct (Hv Hs) as (t & Hp & Hparse).
  unfold elem_text in *. rewrite Hp in *. cbn in *. auto.
Qed.

Lemma parse_items_tail (f : nat) (rest : list ascii) (r : list value) :
  Forall reads_back r ->
  forallb json_serializable r = true ->
  (forall x, In x r -> (List.length (elem_text x) < f)%nat) ->
  forall g acc,
    (List.length r < g)%nat ->
    parse_items (parse_value f) g acc
      (tail_text (map elem_text r) ++ "]" :: rest)
    = Some (VArr (rev acc ++ r), rest).
Proof.
  induction r as [|x r IH]; intros Hall Hser Hlen g acc Hg.
  - destruct g as [|g]; [lia|]. cbn. by rewrite app_nil_r.
  - destruct g as [|g]; [cbn in Hg; lia|].
    apply Forall_cons in Hall as [Hx Hall].
    cbn in Hser. apply andb_prop in Hser as [Hsx Hser].
    cbn [map]. rewrite tail_text_cons.
    cbn [parse_items app skip_ws is_ws]. rewrite <- app_assoc.
    assert (Hxparse :
              parse_value f
                (elem_text x ++ tail_text (map elem_text r) ++ "]" :: rest)
              = Some (x, tail_text (map elem_text r) ++ "]" :: rest)).
    { apply (reads_back_text x (elem_text x) f); try done.
      - apply Hlen. by left.
      - by apply no_num_start_tail. }
    rewrite Hxparse. rewrite IH; try done.
    + cbn [rev]. by rewrite <- app_assoc.
    + intros y Hy. apply Hlen. by right.
    + cbn in Hg. lia.
Qed.

Lemma member_text_line (kv : string * value) :
  reads_back (snd kv) -> json_serializable (snd kv) = true ->
  member_text kv = Some (member_line kv).
Proof.
  intros Hv Hs. destruct (Hv Hs) as (t & Hp & _).
  unfold member_text, member_line, elem_text. by rewrite Hp.
Qed.

Lemma omap_member_text (r : list (string * value)) :
  Forall (fun kv => reads_back (snd kv)) r ->
  forallb (fun kv => json_serializable (snd kv)) r = true ->
  omap member_text r = map member_line r.
Proof.
  induction r as [|kv r IH]; [done|].
  intros [Hkv Hall]%Forall_cons [Hs Hser]%andb_prop.
  cbn [omap list_omap map]. rewrite member_text_line by done.
  by rewrite <- IH.
Qed.

Lemma parse_member_line (f : nat) (kv : string * value) (cont : list ascii) :
  reads_back (snd kv) -> json_serializable (snd kv) = true ->
  (List.length (elem_text (snd kv)) < f)%nat ->
  no_num_start cont = true ->
  parse_member (parse_value f) (member_line kv ++ cont)
  = Some (fst kv, snd kv, cont).
Proof.
  intros Hv Hs Hf Hc. unfold member_line, parse_member.
  rewrite <- app_assoc, quote_app. cbn [skip_ws is_ws].
  rewrite parse_chars_escape. cbn [app skip_ws is_ws].
  destruct (reads_back_text (snd kv) (elem_text (snd kv)) f cont
              Hv Hs eq_refl Hf Hc) as [_ ->].
  done.
Qed.

Lemma parse_members_tail (f : nat) (rest : list ascii)
  (r : list (string * value)) :
  Forall (fun kv => reads_back (snd kv)) r ->
  forallb (fun kv => json_serializable (snd kv)) r = true ->
  (forall kv, In kv r -> (List.length (elem_text (snd kv)) < f)%nat) ->
  forall g acc,
    (List.length r < g)%nat ->
    List.NoDup (map fst acc ++ map fst r) ->
    parse_members (parse_value f) g acc
      (tail_text (map member_line r) ++ "}" :: rest)
    = Some (VObj (acc ++ r), rest).
Proof.
  induction r as [|[k x] r IH]; intros Hall Hser Hlen g acc Hg Hnd.
  - destruct g as [|g]; [lia|]. cbn. by rewrite app_nil_r.
  - destruct g as [|g]; [cbn in Hg; lia|].
    apply Forall_cons in Hall as [Hkv Hall].
    cbn in Hser. apply andb_prop in Hser as [Hs Hser].
    cbn [map]. rewrite tail_text_cons.
    cbn [parse_members app skip_ws is_ws]. rewrite <- app_assoc.
    rewrite parse_member_line; try done.
    + cbn [map] in Hnd.
      rewrite obj_set_fresh.
      * rewrite IH; try done.
        -- by rewrite <- app_assoc.
        -- intros y Hy. apply Hlen. by right.
        -- cbn in Hg. lia.
        -- rewrite map_app. cbn [map]. rewrite <- app_assoc. exact Hnd.
      * apply List.NoDup_remove_2 in Hnd. intros Hin. apply Hnd.
        apply in_or_app. by left.
    + apply Hlen. by left.
    + by apply no_num_start_tail.
Qed.

Lemma parse_value_arr_nonempty (f : nat) (c : ascii) (s : list ascii) :
  is_value_start c = true ->
  parse_value (S f) ("[" :: c :: s) =
    match parse_value f (c :: s) with
    | Some (x, r') => parse_items (parse_value f) f [x] r'
    | None => None
    end.
Proof.
  destruct c as [[] [] [] [] [] [] [] []]; cbn [is_value_start is_num_char];
    try discriminate; intros _; reflexivity.
Qed.

Lemma parse_value_obj_nonempty (f : nat) (s : list ascii) :
  parse_value (S f) ("{" :: DQ :: s) =
    match parse_member (parse_value f) (DQ :: s) with
    | Some (k, x, r') => parse_members (parse_value f) f [(k, x)] r'
    | None => None
    end.
Proof. reflexivity. Qed.

(** Every serializable value is read back from its text. *)
Theorem print_reads_back (v : value) : reads_back v.
Proof.
  induction v as [| |b|n|s|l IH|fs IH] using value_nested_ind;
    intros Hser; try discriminate.
  - eexists. split; [reflexivity|]. intros [|f] rest Hf _; [cbn in Hf; lia|].
    reflexivity.
  - destruct b; (eexists; split; [reflexivity|]);
      (intros [|f] rest Hf _; [cbn in Hf; lia|]); reflexivity.
  - exists (print_int n). split; [reflexivity|].
    intros [|f] rest Hf Hrest; [lia|].
    destruct (print_int_start n) as (c & r & Heq & Hc).
    pose proof (print_int_chars n) as Hchars. rewrite Heq in *.
    cbn [app]. rewrite parse_value_num by done.
    change (c :: r ++ rest) with ((c :: r) ++ rest).
    rewrite span_num_app by done.
    rewrite <- Heq. by rewrite parse_int_print_int.
  - exists (quote s). split; [reflexivity|].
    intros [|f] rest Hf _; [lia|].
    rewrite quote_app. cbn [parse_value skip_ws is_ws].
    by rewrite parse_chars_escape.
  - exists ("[" :: join "," (map elem_text l) ++ ["]"]).
    split; [apply print_arr|].
    intros [|f] rest Hf Hrest; [lia|].
    cbn in Hser.
    destruct l as [|x r]; [reflexivity|].
    apply Forall_cons in IH as [Hx Hall].
    cbn in Hser. apply andb_prop in Hser as [Hsx Hser].
    cbn [map] in *. rewrite join_cons in *.
    cbn [List.length] in Hf. rewrite !length_app in Hf. cbn [List.length] in Hf.
    destruct (Hx Hsx) as (tx & Hp & Hparse).
    assert (Htx : elem_text x = tx) by (unfold elem_text; by rewrite Hp).
    rewrite Htx in *.
    destruct (print_start x tx Hp) as (c & tx' & -> & Hc).
    cbn [app]. rewrite <- !app_assoc. cbn [app].
    rewrite parse_value_arr_nonempty by done.
    change (c :: tx' ++ tail_text (map elem_text r) ++ "]" :: rest)
      with ((c :: tx') ++ tail_text (map elem_text r) ++ "]" :: rest).
    rewrite Hparse; [| lia | by apply no_num_start_tail].
    rewrite parse_items_tail; try done.
    + intros y Hy.
      pose proof (tail_text_member (elem_text y) (map elem_text r)
                    (in_map elem_text r y Hy)). lia.
    + pose proof (tail_text_length (map elem_text r)) as Hl.
      rewrite length_map in Hl. lia.
  - exists ("{" :: join "," (omap member_text fs) ++ ["}"]).
    split; [apply print_obj|].
    intros [|f] rest Hf Hrest; [lia|].
    cbn in Hser. apply andb_prop in Hser as [Hkeys Hser].
    rewrite omap_member_text in * by done.
    destruct fs as [|kv r]; [reflexivity|].
    apply Forall_cons in IH as [Hkv Hall].
    cbn in Hser. apply andb_prop in Hser as [Hs Hser].
    cbn [map] in *. rewrite join_cons in *.
    cbn [List.length] in Hf. rewrite !length_app in Hf. cbn [List.length] in Hf.
    assert (Hlen : (List.length (elem_text (snd kv))
                    < List.length (member_line kv))%nat).
    { unfold member_line. rewrite length_app. cbn. lia. }
    cbn [app]. rewrite <- !app_assoc. cbn [app].
    assert (Hstart : exists body, member_line kv = DQ :: body).
    { unfold member_line, quote. cbn. eauto. }
    destruct Hstart as [body Hbody].
    rewrite Hbody. cbn [app]. rewrite parse_value_obj_nonempty.
    change (DQ :: body ++ tail_text (map member_line r) ++ "}" :: rest)
      with ((DQ :: body) ++ tail_text (map member_line r) ++ "}" :: rest).
    rewrite <- Hbody.
    rewrite parse_member_line; [| done | done | lia
                                | by apply no_num_start_tail].
    destruct kv as [k x]. cbn [fst snd].
    rewrite parse_members_tail; try done.
    + intros y Hy.
      pose proof (tail_text_member (member_line y) (map member_line r)
                    (in_map member_line r y Hy)) as Hy'.
      unfold member_line in Hy' at 1. rewrite length_app in Hy'.
      cbn [List.length] in Hy'. lia.
    + pose proof (tail_text_length (map member_line r)) as Hl.
      rewrite length_map in Hl. lia.
    + cbn. by apply distinct_keys_NoDup.
Qed.

(** [JSON.parse(JSON.stringify(v))] is [v] for a serializable [v]. *)
Theorem parse_stringify (v : value) :
  json_serializable v = true ->
  exists s, stringify v = Some s /\ parse s = Some v /\ s <> EmptyString.
Proof.
  intros Hser. destruct (print_reads_back v Hser) as (t & Hp & Hparse).
  exists (string_of_list_ascii t). unfold stringify, parse. rewrite Hp.
  split; [done|]. rewrite list_ascii_of_string_of_list_ascii.
  specialize (Hparse (S (List.length t)) [] (Nat.lt_succ_diag_r _) eq_refl).
  rewrite app_nil_r in Hparse. rewrite Hparse. cbn. split; [done|].
  destruct (print_start v t Hp) as (c & r & -> & _). done.
Qed.

End JsonRoundTrip.

(* ===================================================================== *)
(** ** Running the model *)
(* ===================================================================== *)

Local Open Scope js_scope.

(** Evaluation of a computation on a world in constructor form. *)
Ltac run :=
  lazy beta iota zeta delta
    [clearAuthData getToken setToken setUser isAuthenticated
     localStorage_getItem localStorage_setItem localStorage_removeItem
     setIsAuthenticated setUserData setError setLoading setMsalInstance
     setMsalInitialized navigate with_storage emit answer read
     try_finally try_catch bind ret throw
     after_effects after_post
     storage s_isAuthenticated s_userData s_error s_loading s_msalInstance
     s_msalInitialized listening trace fst snd].

Section logout_facts.
Variable msalInstance : option MsalApp.

Lemma logout_run (w : World) :
  exists popup : list effect,
    logout msalInstance w =
      (Ok tt,
       mkWorld (delete USER_KEY (delete TOKEN_KEY (storage w)))
         false VNull (s_error w) (s_loading w) (s_msalInstance w)
         (s_msalInitialized w) (listening w)
         (trace w ++ [StorageRemove TOKEN_KEY; StorageRemove USER_KEY;
                      SetIsAuthenticated false; SetUserData VNull]
                  ++ popup ++ [Navigate "/login"]))
    /\ (popup = [] \/ popup = [MsalLogoutPopup])
    /\ (popup = [MsalLogoutPopup] ->
        storage w !! AUTH_METHOD_KEY = Some "msal" /\ is_Some msalInstance).
Proof.
  destruct w as [st ia ud er lo mi mn li tr]. unfold logout. run.
  destruct (st !! AUTH_METHOD_KEY) as [m|] eqn:Hm;
    [destruct msalInstance as [app|];
     [destruct (String.eqb m "msal") eqn:Heq|]|].
  - apply String.eqb_eq in Heq. subst m.
    exists [MsalLogoutPopup].
    destruct (msal_logoutPopup app) as [[]|e]; run;
      rewrite <- !app_assoc; cbn [List.app]; eauto 10.
  - exists []. run. rewrite <- !app_assoc. cbn [List.app].
    split; [reflexivity|]. split; [by left|]. discriminate.
  - exists []. run. rewrite <- !app_assoc. cbn [List.app].
    split; [reflexivity|]. split; [by left|]. discriminate.
  - exists []. run. rewrite <- !app_assoc. cbn [List.app].
    split; [reflexivity|]. split; [by left|]. discriminate.
Qed.

End logout_facts.

(* ===================================================================== *)
(** ** Logout *)
(* ===================================================================== *)

(** C5.  [logout] first removes the token and the user record from the
    store and sets [isAuthenticated] to [false] and [userData] to [null];
    only after that may the provider's sign-out be called, and it is called
    only if the recorded method tag is ["msal"] (and an MSAL instance
    exists); whatever the sign-out answers, resolved or rejected, the last
    effect is the navigation to [/login], the promise of [logout] resolves,
    and the store and the state stay torn down. *)
Theorem logout_teardown_then_signout_then_navigate
  (msalInstance : option MsalApp) (w : World) :
  exists (popup : list effect) (w' : World),
    logout msalInstance w = (Ok tt, w')
    /\ trace w' =
         trace w ++ [StorageRemove TOKEN_KEY; StorageRemove USER_KEY;
                     SetIsAuthenticated false; SetUserData VNull]
                 ++ popup ++ [Navigate "/login"]
    /\ (popup = [] \/ popup = [MsalLogoutPopup])
    /\ (popup = [MsalLogoutPopup] ->
        storage w !! AUTH_METHOD_KEY = Some "msal" /\ is_Some msalInstance)
    /\ storage w' !! TOKEN_KEY = None
    /\ storage w' !! USER_KEY = None
    /\ s_isAuthenticated w' = false
    /\ s_userData w' = VNull.
Proof.
  destruct (logout_run msalInstance w) as (popup & Hrun & Hcases & Honly).
  eexists popup, _. split; [exact Hrun|].
  cbn [trace storage s_isAuthenticated s_userData].
  split; [reflexivity|]. split; [exact Hcases|]. split; [exact Honly|].
  split; [|split; [|done]].
  - rewrite lookup_delete_ne by done. apply lookup_delete_eq.
  - apply lookup_delete_eq.
Qed.

(** C2.  The method tag survives [logout]: on a store that holds the three
    keys, the token and the user record are removed and
    [nextbi_auth_method] still holds its value. *)
Theorem logout_leaves_auth_method_tag :
  let w' := snd (logout (Some rejecting_app)
                   (initial_world msal_session_store true)) in
  storage w' !! TOKEN_KEY = None
  /\ storage w' !! USER_KEY = None
  /\ storage w' !! AUTH_METHOD_KEY = Some "msal".
Proof. vm_compute. done. Qed.

(* ===================================================================== *)
(** ** The loading flag *)
(* ===================================================================== *)

(** A [finally { setLoading(false) }] decides the flag and is the last
    effect, however the guarded block ends. *)
Lemma finally_setLoading_false {A} (m : M A) (w : World) :
  let '(r, w') := try_finally m (setLoading false) w in
  r = fst (m w)
  /\ s_loading w' = false
  /\ trace w' = trace (snd (m w)) ++ [SetLoading false].
Proof.
  unfold try_finally. destruct (m w) as [r [st ia ud er lo mi mn li tr]].
  run. done.
Qed.

(** C6.  Startup resolution and [login] end with [loading = false] on
    every path: whatever the platform answers and whatever the guarded
    blocks do or throw, the last effect of both is [setLoading(false)]. *)
Theorem loading_false_when_initializeMsal_and_login_finish
  (P : Platform) (msalInstance : option MsalApp) (msalInitialized : bool)
  (w : World) :
  (s_loading (snd (initializeMsal P msalInstance msalInitialized w)) = false
   /\ last (trace (snd (initializeMsal P msalInstance msalInitialized w)))
      = Some (SetLoading false))
  /\ (s_loading (snd (login P msalInstance msalInitialized w)) = false
      /\ last (trace (snd (login P msalInstance msalInitialized w)))
         = Some (SetLoading false)).
Proof.
  split.
  - unfold initializeMsal.
    match goal with |- context [try_finally ?m _ w] =>
      pose proof (finally_setLoading_false m w) as H;
      destruct (try_finally m (setLoading false) w) as [r w'] end.
    destruct H as (_ & Hl & Ht). cbn. split; [done|].
    rewrite Ht. apply last_snoc.
  - unfold login.
    match goal with |- context [try_finally ?m _ w] =>
      pose proof (finally_setLoading_false m w) as H;
      destruct (try_finally m (setLoading false) w) as [r w'] end.
    destruct H as (_ & Hl & Ht). cbn. split; [done|].
    rewrite Ht. apply last_snoc.
Qed.

(* ===================================================================== *)
(** ** Reading a response *)
(* ===================================================================== *)

Lemma prop_of_object (fs : list (string * value)) (k : string) :
  prop (VObj fs) k = inl (opt_prop (VObj fs) k).
Proof. reflexivity. Qed.

Lemma truthy_opt_prop_object (v : value) (k : string) :
  truthy (opt_prop v k) = true -> exists fs, v = VObj fs.
Proof. destruct v; cbn; intros; try done. eauto. Qed.

Lemma exchange_succeeded_inv (data : value) :
  exchange_succeeded (Response data) = true ->
  exists fs gs,
    data = VObj fs /\ opt_prop data "data" = VObj gs
    /\ truthy (opt_prop data "success") = true
    /\ truthy (response_token data) = true.
Proof.
  unfold exchange_succeeded, response_token.
  intros [Hs Ht]%andb_prop.
  destruct (truthy_opt_prop_object _ _ Hs) as [fs ->].
  destruct (truthy_opt_prop_object _ _ Ht) as [gs Hgs].
  exists fs, gs. rewrite Hgs in *. done.
Qed.

(* ===================================================================== *)
(** ** The listener *)
(* ===================================================================== *)

Lemma getUser_run (w : World) : getUser w = (Ok (stored_user (storage w)), w).
Proof.
  destruct w as [st ia ud er lo mi mn li tr].
  unfold getUser, stored_user, JSON_parse. run.
  destruct (st !! USER_KEY) as [s|]; [|done].
  destruct (String.eqb s ""); cbn [negb default]; [done|].
  destruct (Json.parse s); done.
Qed.

(** The listener leaves the store alone and recomputes the two state
    variables from the stored user record. *)
Lemma auth_changed_handler_run (w : World) :
  let u := stored_user (storage w) in
  auth_changed_handler w =
    (Ok tt,
     if truthy u
     then mkWorld (storage w) true u VNull (s_loading w) (s_msalInstance w)
            (s_msalInitialized w) (listening w)
            (trace w ++ [SetUserData u; SetIsAuthenticated true; SetError VNull])
     else mkWorld (storage w) false VNull (s_error w) (s_loading w)
            (s_msalInstance w) (s_msalInitialized w) (listening w)
            (trace w ++ [SetUserData VNull; SetIsAuthenticated false])).
Proof.
  destruct w as [st ia ud er lo mi mn li tr].
  unfold auth_changed_handler. run. rewrite getUser_run.
  cbn [storage]. destruct (truthy (stored_user st)); run;
    rewrite <- ?app_assoc; done.
Qed.

Lemma after_dispatch_storage (w : World) :
  storage (after_dispatch w) = storage w.
Proof.
  unfold after_dispatch. destruct (listening w); [|done].
  rewrite auth_changed_handler_run. cbn [snd].
  by destruct (truthy (stored_user (storage w))).
Qed.

Lemma after_dispatch_trace (w : World) :
  exists t, trace (after_dispatch w) = trace w ++ t
            /\ forallb (fun e => negb (is_post e || is_msal e || is_dispatch e)) t = true.
Proof.
  unfold after_dispatch. destruct (listening w).
  - rewrite auth_changed_handler_run. cbn [snd].
    destruct (truthy (stored_user (storage w))); cbn [trace]; eauto.
  - exists []. by rewrite app_nil_r.
Qed.

(* ===================================================================== *)
(** ** The exchange calls, case by case *)
(* ===================================================================== *)

Section exchange_facts.
Variable P : Platform.

(** The provider exchange on a response with [success] and a token. *)
Lemma exchangeAzureToken_success (userInfo : UserInfo) (data : value) (w : World) :
  axios_post P azure_url (azure_request userInfo) = Response data ->
  exchange_succeeded (Response data) = true ->
  let token := response_token data in
  let user := js_or (response_user data) (user_from_info userInfo) in
  exchangeAzureToken P userInfo w =
    (Ok token,
     mkWorld (store_session token user (storage w))
       (s_isAuthenticated w) (s_userData w) (s_error w) (s_loading w)
       (s_msalInstance w) (s_msalInitialized w) (listening w)
       (trace w ++ HttpPost azure_url (azure_request userInfo)
                :: session_writes token user)).
Proof.
  intros Hpost Hok.
  destruct (exchange_succeeded_inv _ Hok) as (fs & gs & -> & Hd & Hs & Ht).
  unfold response_token, response_user in *. rewrite Hd in *.
  destruct w as [st ia ud er lo mi mn li tr].
  unfold exchangeAzureToken, axios_post_data.
  fold azure_url. rewrite Hpost. run.
  rewrite ?prop_of_object, Hs. run.
  rewrite ?prop_of_object, Hd. run.
  rewrite ?prop_of_object, Ht. run.
  unfold store_session, session_writes.
  rewrite <- !app_assoc. done.
Qed.

(** The provider exchange when the request is rejected: the error that
    axios threw is thrown on, nothing is written. *)
Lemma exchangeAzureToken_rejected (userInfo : UserInfo) (message : string)
  (response_data : option value) (w : World) :
  axios_post P azure_url (azure_request userInfo)
    = AxiosFailure message response_data ->
  exchangeAzureToken P userInfo w =
    (Throw (axios_error message response_data),
     after_post azure_url (azure_request userInfo) w).
Proof.
  intros Hpost. destruct w as [st ia ud er lo mi mn li tr].
  unfold exchangeAzureToken, axios_post_data.
  fold azure_url. rewrite Hpost. run.
  destruct response_data; done.
Qed.

(** The provider exchange on a response whose [success] is falsy: a new
    [Error] with a fixed message is thrown, nothing is written. *)
Lemma exchangeAzureToken_refused (userInfo : UserInfo)
  (fs : list (string * value)) (w : World) :
  axios_post P azure_url (azure_request userInfo) = Response (VObj fs) ->
  truthy (opt_prop (VObj fs) "success") = false ->
  exchangeAzureToken P userInfo w =
    (Throw (js_Error "Failed to get backend token"),
     after_post azure_url (azure_request userInfo) w).
Proof.
  intros Hpost Hs. destruct w as [st ia ud er lo mi mn li tr].
  unfold exchangeAzureToken, axios_post_data.
  fold azure_url. rewrite Hpost. run.
  rewrite ?prop_of_object, Hs. run. rewrite Hs. run. done.
Qed.

(** The developer exchange on a response with [success] and a token. *)
Lemma devLogin_success (opts data : value) (w : World) :
  axios_post P dev_url (dev_request P opts) = Response data ->
  exchange_succeeded (Response data) = true ->
  let token := response_token data in
  let user := response_user data in
  devLogin P opts w =
    (Ok (VObj [("success", VBool true); ("token", token); ("user", user)]),
     after_dispatch
       (mkWorld (store_session token user (storage w))
          (s_isAuthenticated w) (s_userData w) (s_error w) (s_loading w)
          (s_msalInstance w) (s_msalInitialized w) (listening w)
          (trace w ++ HttpPost dev_url (dev_request P opts)
                   :: session_writes token user
                   ++ [DispatchEvent "nextbi:auth-changed"
                         (VObj [("method", VStr "dev"); ("user", user)])]))).
Proof.
  intros Hpost Hok.
  destruct (exchange_succeeded_inv _ Hok) as (fs & gs & -> & Hd & Hs & Ht).
  unfold response_token, response_user in *. rewrite Hd in *.
  destruct w as [st ia ud er lo mi mn li tr].
  unfold devLogin, axios_post_data.
  fold dev_url. rewrite Hpost. run.
  rewrite ?prop_of_object, Hs. run.
  rewrite ?prop_of_object, Hd. run. rewrite Ht. run.
  rewrite ?prop_of_object. run.
  unfold dispatchEvent, after_dispatch, store_session, session_writes. run.
  rewrite <- !app_assoc. cbn [List.app].
  change (String.eqb "nextbi:auth-changed" "nextbi:auth-changed") with true.
  destruct li; cbn [andb]; run; done.
Qed.

(** The developer exchange when the request is rejected. *)
Lemma devLogin_rejected (opts : value) (message : string)
  (response_data : option value) (w : World) :
  axios_post P dev_url (dev_request P opts)
    = AxiosFailure message response_data ->
  devLogin P opts w =
    (Ok (VObj [("success", VBool false);
               ("error",
                js_or (default VUndefined response_data)
                  (js_or (VStr message) (axios_error message response_data)))]),
     after_post dev_url (dev_request P opts) w).
Proof.
  intros Hpost. destruct w as [st ia ud er lo mi mn li tr].
  unfold devLogin, axios_post_data.
  fold dev_url. rewrite Hpost. run.
  destruct response_data; done.
Qed.

(** The developer exchange on a response whose [success] is falsy. *)
Lemma devLogin_refused (opts : value) (fs : list (string * value)) (w : World) :
  axios_post P dev_url (dev_request P opts) = Response (VObj fs) ->
  truthy (opt_prop (VObj fs) "success") = false ->
  devLogin P opts w =
    (Ok (VObj [("success", VBool false); ("error", VObj fs)]),
     after_post dev_url (dev_request P opts) w).
Proof.
  intros Hpost Hs. destruct w as [st ia ud er lo mi mn li tr].
  unfold devLogin, axios_post_data.
  fold dev_url. rewrite Hpost. run.
  rewrite ?prop_of_object, Hs. run. rewrite Hs. run. done.
Qed.

(** The developer exchange never rejects; when the backend did not answer
    with [success] and a token it reports [success: false] after the
    request alone. *)
Lemma devLogin_failure (opts : value) (w : World) :
  exchange_succeeded (axios_post P dev_url (dev_request P opts)) = false ->
  exists err,
    devLogin P opts w =
      (Ok (VObj [("success", VBool false); ("error", err)]),
       after_post dev_url (dev_request P opts) w).
Proof.
  intros Hfail.
  destruct (axios_post P dev_url (dev_request P opts))
    as [data|message rd] eqn:Hpost.
  - destruct w as [st ia ud er lo mi mn li tr].
    unfold devLogin, axios_post_data. fold dev_url. rewrite Hpost. run.
    destruct data as [| |b|n|s|l|fs];
      try (eexists; cbn [prop truthy js_TypeError]; run;
           cbn [prop truthy js_TypeError]; run; reflexivity).
    unfold exchange_succeeded in Hfail.
    rewrite ?prop_of_object.
    destruct (truthy (opt_prop (VObj fs) "success")) eqn:Hs.
    + cbn [andb] in Hfail. run. rewrite ?prop_of_object. run.
      rewrite Hfail. run. eexists. reflexivity.
    + run. rewrite Hs. run. eexists. reflexivity.
  - eexists. by apply devLogin_rejected.
Qed.

(** The provider exchange rejects, after the request alone, whenever the
    backend did not answer with [success] and a token. *)
Lemma exchangeAzureToken_failure (userInfo : UserInfo) (w : World) :
  exchange_succeeded (axios_post P azure_url (azure_request userInfo)) = false ->
  exists e,
    exchangeAzureToken P userInfo w =
      (Throw e, after_post azure_url (azure_request userInfo) w).
Proof.
  intros Hfail.
  destruct (axios_post P azure_url (azure_request userInfo))
    as [data|message rd] eqn:Hpost.
  - destruct w as [st ia ud er lo mi mn li tr].
    unfold exchangeAzureToken, axios_post_data. fold azure_url.
    rewrite Hpost. run.
    destruct data as [| |b|n|s|l|fs];
      try (eexists; cbn [prop truthy js_TypeError js_Error]; run;
           cbn [prop truthy js_TypeError js_Error]; run; reflexivity).
    unfold exchange_succeeded in Hfail.
    rewrite ?prop_of_object.
    destruct (truthy (opt_prop (VObj fs) "success")) eqn:Hs.
    + cbn [andb] in Hfail. run. rewrite ?prop_of_object. run.
      destruct (opt_prop (VObj fs) "data") as [| |b|n|s|l|gs] eqn:Hd;
        try (eexists; cbn [prop truthy js_TypeError js_Error]; run;
             cbn [prop truthy js_TypeError js_Error]; run; reflexivity).
      rewrite ?prop_of_object. run. rewrite Hfail. run.
      cbn [prop js_Error]. run. eexists. reflexivity.
    + run. rewrite Hs. run. cbn [prop js_Error]. run.
      eexists. reflexivity.
  - eexists. by apply exchangeAzureToken_rejected.
Qed.

End exchange_facts.

(* ===================================================================== *)
(** ** The authenticated check *)
(* ===================================================================== *)

(** C1, as the code has it.  [isAuthenticated()] reports [true] exactly
    when the store holds a non-empty token, whether or not a user record is
    there; the listener for [nextbi:auth-changed] sets [isAuthenticated]
    to [true] exactly when the stored user record reads back as a truthy
    value, whether or not a token is there. *)
Theorem authenticated_check_reads_one_key (w : World) :
  isAuthenticated w = (Ok (store_has_token (storage w)), w)
  /\ s_isAuthenticated (snd (auth_changed_handler w))
     = truthy (stored_user (storage w)).
Proof.
  split.
  - unfold isAuthenticated, store_has_token. run.
    by destruct (storage w !! TOKEN_KEY).
  - rewrite auth_changed_handler_run. cbn.
    by destruct (truthy (stored_user (storage w))).
Qed.

(** C1 fails as stated: with a token and no user record
    [isAuthenticated()] is [true]; with a user record and no token the
    listener sets [isAuthenticated] to [true]. *)
Lemma authenticated_with_one_of_the_two :
  (fst (isAuthenticated (initial_world token_only_store true)) = Ok true
   /\ token_only_store !! USER_KEY = None)
  /\ (s_isAuthenticated
        (snd (auth_changed_handler (initial_world user_only_store true))) = true
      /\ user_only_store !! TOKEN_KEY = None).
Proof. vm_compute. done. Qed.

(* ===================================================================== *)
(** ** A successful exchange *)
(* ===================================================================== *)

(** C3, as the code has it.  On a response with [success] and a token both
    exchange calls write the token and the user record to the store before
    they return.  [devLogin] then dispatches [nextbi:auth-changed] with
    [{ method: 'dev', user }] and returns [{ success: true, token, user }];
    [exchangeAzureToken] returns the token and dispatches nothing: its
    effects are the request and the two writes. *)
Theorem successful_exchange_writes_session
  (P : Platform) (userInfo : UserInfo) (opts : value) (w : World) :
  (forall data,
     axios_post P azure_url (azure_request userInfo) = Response data ->
     exchange_succeeded (Response data) = true ->
     let token := response_token data in
     let user := js_or (response_user data) (user_from_info userInfo) in
     let w' := snd (exchangeAzureToken P userInfo w) in
     fst (exchangeAzureToken P userInfo w) = Ok token
     /\ storage w' = store_session token user (storage w)
     /\ trace w' = trace w ++ HttpPost azure_url (azure_request userInfo)
                           :: session_writes token user)
  /\ (forall data,
        axios_post P dev_url (dev_request P opts) = Response data ->
        exchange_succeeded (Response data) = true ->
        let token := response_token data in
        let user := response_user data in
        let w' := snd (devLogin P opts w) in
        fst (devLogin P opts w)
          = Ok (VObj [("success", VBool true); ("token", token); ("user", user)])
        /\ storage w' = store_session token user (storage w)
        /\ exists listener_effects,
             trace w' = trace w ++ HttpPost dev_url (dev_request P opts)
                                :: session_writes token user
                                ++ DispatchEvent "nextbi:auth-changed"
                                     (VObj [("method", VStr "dev"); ("user", user)])
                                :: listener_effects
             /\ existsb is_dispatch listener_effects = false).
Proof.
  split; intros data Hpost Hok; cbn zeta.
  - rewrite (exchangeAzureToken_success P userInfo data w Hpost Hok). done.
  - rewrite (devLogin_success P opts data w Hpost Hok). cbn [fst snd].
    split; [done|]. split.
    + by rewrite after_dispatch_storage.
    + match goal with |- context [after_dispatch ?w0] =>
        destruct (after_dispatch_trace w0) as (t & -> & Ht) end.
      exists t. cbn [trace]. split.
      * rewrite <- !app_assoc. done.
      * clear -Ht. induction t as [|e t IH]; [done|].
        cbn in *. apply andb_prop in Ht as [He Ht].
        rewrite (IH Ht). by destruct e.
Qed.

(** C3 at sample inputs: both calls on the body
    [{ success: true, data: { token: "jwt", user } }]. *)
Lemma successful_exchange_writes_session_witness :
  (let P := sample_platform "localhost" (Response success_body) in
   let w := initial_world ∅ true in
   fst (exchangeAzureToken P sample_info w) = Ok (VStr "jwt")
   /\ storage (snd (exchangeAzureToken P sample_info w))
      = store_session (VStr "jwt") sample_user ∅)
  /\ (let P := sample_platform "localhost" (Response success_body) in
      let w := initial_world ∅ true in
      fst (devLogin P VUndefined w)
        = Ok (VObj [("success", VBool true); ("token", VStr "jwt");
                    ("user", sample_user)])
      /\ storage (snd (devLogin P VUndefined w))
         = store_session (VStr "jwt") sample_user ∅).
Proof.
  pose (P := sample_platform "localhost" (Response success_body)).
  pose (w := initial_world ∅ true).
  destruct (successful_exchange_writes_session P sample_info VUndefined w)
    as [Ha Hd].
  split.
  - destruct (Ha success_body eq_refl eq_refl) as (H1 & H2 & _).
    split; [exact H1 | exact H2].
  - destruct (Hd success_body eq_refl eq_refl) as (H1 & H2 & _).
    split; [exact H1 | exact H2].
Defined.

(** C3 fails as stated: a successful provider exchange returns the token
    and dispatches no event. *)
Lemma exchangeAzureToken_dispatches_nothing :
  let P := sample_platform "localhost" (Response success_body) in
  let w := initial_world ∅ true in
  fst (exchangeAzureToken P sample_info w) = Ok (VStr "jwt")
  /\ existsb is_dispatch (trace (snd (exchangeAzureToken P sample_info w)))
     = false.
Proof. vm_compute. done. Qed.

(* ===================================================================== *)
(** ** A failed exchange *)
(* ===================================================================== *)

(** C4, as the code has it.  A failed exchange, that is every call whose
    request is rejected or whose response lacks a truthy [success] or a
    token, writes nothing: the store is as before and the only effect is
    the request; [exchangeAzureToken] rejects and [devLogin] returns
    [{ success: false, error }].  For [devLogin], [error] is the response
    body when the backend refused, and for a rejected request the body of
    the error's response if it is truthy, else the error's message, else
    the error.  [exchangeAzureToken] throws the rejection of the request
    on as it caught it; on a refusal it throws a new [Error] with the
    message "Failed to get backend token", which does not carry the
    body. *)
Theorem failed_exchange_writes_nothing
  (P : Platform) (userInfo : UserInfo) (opts : value) (w : World) :
  (exchange_succeeded (axios_post P azure_url (azure_request userInfo)) = false ->
   exists e,
     exchangeAzureToken P userInfo w
       = (Throw e, after_post azure_url (azure_request userInfo) w))
  /\ (exchange_succeeded (axios_post P dev_url (dev_request P opts)) = false ->
      exists err,
        devLogin P opts w
          = (Ok (VObj [("success", VBool false); ("error", err)]),
             after_post dev_url (dev_request P opts) w))
  /\ (forall message response_data,
        axios_post P azure_url (azure_request userInfo)
          = AxiosFailure message response_data ->
        exchangeAzureToken P userInfo w
          = (Throw (axios_error message response_data),
             after_post azure_url (azure_request userInfo) w))
  /\ (forall fs,
        axios_post P azure_url (azure_request userInfo) = Response (VObj fs) ->
        truthy (opt_prop (VObj fs) "success") = false ->
        exchangeAzureToken P userInfo w
          = (Throw (js_Error "Failed to get backend token"),
             after_post azure_url (azure_request userInfo) w))
  /\ (forall message response_data,
        axios_post P dev_url (dev_request P opts)
          = AxiosFailure message response_data ->
        devLogin P opts w
          = (Ok (VObj [("success", VBool false);
                       ("error",
                        js_or (default VUndefined response_data)
                          (js_or (VStr message)
                             (axios_error message response_data)))]),
             after_post dev_url (dev_request P opts) w))
  /\ (forall fs,
        axios_post P dev_url (dev_request P opts) = Response (VObj fs) ->
        truthy (opt_prop (VObj fs) "success") = false ->
        devLogin P opts w
          = (Ok (VObj [("success", VBool false); ("error", VObj fs)]),
             after_post dev_url (dev_request P opts) w)).
Proof.
  repeat split.
  - apply exchangeAzureToken_failure.
  - apply devLogin_failure.
  - intros. by apply exchangeAzureToken_rejected.
  - intros fs Hpost Hs.
    by apply (exchangeAzureToken_refused P userInfo fs).
  - intros. by apply devLogin_rejected.
  - intros. by apply devLogin_refused.
Qed.

(** C4 at sample inputs: a request rejected with the body
    [{ success: false, error: "boom" }], and the same body as a response. *)
Lemma failed_exchange_writes_nothing_witness :
  (let P := sample_platform "localhost"
              (AxiosFailure "Request failed" (Some refusal_body)) in
   let w := initial_world token_only_store true in
   exchangeAzureToken P sample_info w
     = (Throw (axios_error "Request failed" (Some refusal_body)),
        after_post azure_url (azure_request sample_info) w)
   /\ devLogin P VUndefined w
      = (Ok (VObj [("success", VBool false); ("error", refusal_body)]),
         after_post dev_url (dev_request P VUndefined) w))
  /\ (let P := sample_platform "localhost" (Response refusal_body) in
      let w := initial_world token_only_store true in
      exchangeAzureToken P sample_info w
        = (Throw (js_Error "Failed to get backend token"),
           after_post azure_url (azure_request sample_info) w)
      /\ devLogin P VUndefined w
         = (Ok (VObj [("success", VBool false); ("error", refusal_body)]),
            after_post dev_url (dev_request P VUndefined) w)).
Proof.
  split.
  - pose (P := sample_platform "localhost"
                 (AxiosFailure "Request failed" (Some refusal_body))).
    destruct (failed_exchange_writes_nothing P sample_info VUndefined
                (initial_world token_only_store true))
      as (_ & _ & H1 & _ & H3 & _).
    split.
    + exact (H1 _ _ eq_refl).
    + exact (H3 _ _ eq_refl).
  - pose (P := sample_platform "localhost" (Response refusal_body)).
    destruct (failed_exchange_writes_nothing P sample_info VUndefined
                (initial_world token_only_store true))
      as (_ & _ & _ & H2 & _ & H4).
    split.
    + exact (H2 refusal_fields eq_refl eq_refl).
    + exact (H4 refusal_fields eq_refl eq_refl).
Defined.

(** C4 fails as stated: when the backend answers
    [{ success: false, error: "boom" }], [exchangeAzureToken] throws an
    [Error] that has only a message; the body is not what the caller
    gets and is not inside it. *)
Lemma exchangeAzureToken_drops_refusal_body :
  let P := sample_platform "localhost" (Response refusal_body) in
  let thrown := fst (exchangeAzureToken P sample_info (initial_world ∅ true)) in
  thrown = Throw (VObj [("message", VStr "Failed to get backend token")])
  /\ thrown <> Throw refusal_body.
Proof. vm_compute. split; [done | discriminate]. Qed.

(* ===================================================================== *)
(** ** Token retrieval *)
(* ===================================================================== *)




(* ===================================================================== *)
(** ** Startup with developer bypass *)
(* ===================================================================== *)

Lemma js_or_same (a : value) : js_or a a = a.
Proof. unfold js_or. by destruct (truthy a). Qed.

(** The request that carries the default identity holds exactly the
    configured email and display name and no avatar. *)
Lemma dev_request_default (P : Platform) :
  dev_request P (default_dev_identity P) =
    VObj [("email", getClientEnv P "REACT_APP_DEV_TEST_EMAIL" (VStr "dev@local.test"));
          ("displayName", getClientEnv P "REACT_APP_DEV_DISPLAYNAME" (VStr "Developer"));
          ("avatar", VNull)].
Proof.
  unfold dev_request, default_dev_identity. cbn. by rewrite !js_or_same.
Qed.

Lemma filter_app_nil {A} (f : A -> bool) (t u : list A) :
  forallb (fun e => negb (f e)) t = true ->
  List.filter f (t ++ u) = List.filter f u.
Proof.
  induction t as [|e t IH]; [done|]. cbn. intros [He Ht]%andb_prop.
  destruct (f e); [done|]. by apply IH.
Qed.

Lemma listener_effects_silent (t : list effect) :
  forallb (fun e => negb (is_post e || is_msal e || is_dispatch e)) t = true ->
  forallb (fun e => negb (is_post e)) t = true
  /\ forallb (fun e => negb (is_msal e)) t = true.
Proof.
  induction t as [|e t IH]; [done|]. cbn. intros [He Ht]%andb_prop.
  destruct (IH Ht) as [-> ->]. by destruct e.
Qed.

Section startup_facts.
Variable P : Platform.
Variable msalInstance : option MsalApp.
Variable msalInitialized : bool.
Hypothesis dev_enabled : isDevAuthEnabled P = true.

(** Reading a field of an object literal. *)
Ltac read_fields :=
  rewrite ?prop_of_object;
  cbn [opt_prop assoc default from_option id truthy String.eqb Ascii.eqb Bool.eqb].

(** Startup with a session in the store: the state is restored from the
    store and nothing is asked of the backend or of MSAL. *)
Lemma initializeMsal_dev_restores (w : World) :
  session_stored P (storage w) = true ->
  initializeMsal P msalInstance msalInitialized w =
    (Ok tt,
     mkWorld (storage w) true (stored_user (storage w)) (s_error w) false
       (s_msalInstance w) (s_msalInitialized w) (listening w)
       (trace w ++ [SetUserData (stored_user (storage w));
                    SetIsAuthenticated true; SetLoading false;
                    SetLoading false])).
Proof.
  destruct w as [st ia ud er lo mi mn li tr].
  unfold session_stored. cbn [storage]. intros Hs.
  unfold initializeMsal. rewrite dev_enabled.
  unfold initializeMsal_dev. run. rewrite getUser_run. run.
  rewrite Hs. run. by rewrite <- !app_assoc.
Qed.

(** Startup without a session, the exchange succeeds. *)
Lemma initializeMsal_dev_exchange_ok (w : World) (data : value) :
  session_stored P (storage w) = false ->
  axios_post P dev_url (dev_request P (default_dev_identity P))
    = Response data ->
  exchange_succeeded (Response data) = true ->
  exists error' listener_effects,
    initializeMsal P msalInstance msalInitialized w =
      (Ok tt,
       mkWorld (<[AUTH_METHOD_KEY := "dev"]>
                  (store_session (response_token data) (response_user data)
                     (storage w)))
         true (response_user data) error' false
         (s_msalInstance w) (s_msalInitialized w) (listening w)
         (trace w ++ HttpPost dev_url (dev_request P (default_dev_identity P))
                  :: session_writes (response_token data) (response_user data)
                  ++ DispatchEvent "nextbi:auth-changed"
                       (VObj [("method", VStr "dev");
                              ("user", response_user data)])
                  :: listener_effects
                  ++ [SetUserData (response_user data);
                      SetIsAuthenticated true;
                      StorageSet AUTH_METHOD_KEY "dev";
                      SetLoading false; SetLoading false]))
    /\ forallb (fun e => negb (is_post e || is_msal e || is_dispatch e))
         listener_effects = true.
Proof.
  destruct w as [st ia ud er lo mi mn li tr].
  unfold session_stored. cbn [storage]. intros Hs Hpost Hok.
  unfold initializeMsal. rewrite dev_enabled.
  unfold initializeMsal_dev. run. rewrite getUser_run. run.
  rewrite Hs. run. fold (default_dev_identity P).
  rewrite (devLogin_success P _ data _ Hpost Hok).
  unfold after_dispatch. cbn [listening].
  destruct li.
  - rewrite auth_changed_handler_run. cbn [storage snd].
    match goal with |- context [if truthy ?u then _ else _] =>
      destruct (truthy u) end.
    + run. read_fields. run. read_fields. run.
      eexists _, [SetUserData _; SetIsAuthenticated true; SetError VNull].
      split; [|reflexivity].
      unfold session_writes. rewrite <- !app_assoc. reflexivity.
    + run. read_fields. run. read_fields. run.
      eexists _, [SetUserData VNull; SetIsAuthenticated false].
      split; [|reflexivity].
      unfold session_writes. rewrite <- !app_assoc. reflexivity.
  - run. read_fields. run. read_fields. run.
    eexists _, []. split; [|reflexivity].
    unfold session_writes. rewrite <- !app_assoc. reflexivity.
Qed.

(** Startup without a session, the exchange fails. *)
Lemma initializeMsal_dev_exchange_failed (w : World) :
  session_stored P (storage w) = false ->
  exchange_succeeded
    (axios_post P dev_url (dev_request P (default_dev_identity P))) = false ->
  initializeMsal P msalInstance msalInitialized w =
    (Ok tt,
     mkWorld (storage w) (s_isAuthenticated w) (s_userData w)
       (VStr "Development login failed") false
       (s_msalInstance w) (s_msalInitialized w) (listening w)
       (trace w ++ [HttpPost dev_url (dev_request P (default_dev_identity P));
                    SetError (VStr "Development login failed");
                    SetLoading false; SetLoading false])).
Proof.
  destruct w as [st ia ud er lo mi mn li tr].
  unfold session_stored. cbn [storage]. intros Hs Hfail.
  unfold initializeMsal. rewrite dev_enabled.
  unfold initializeMsal_dev. run. rewrite getUser_run. run.
  rewrite Hs. run. fold (default_dev_identity P).
  destruct (devLogin_failure P _ (mkWorld st ia ud er lo mi mn li tr) Hfail)
    as [err ->].
  run. read_fields. run. by rewrite <- !app_assoc.
Qed.

End startup_facts.

(** C7.  Startup with developer bypass enabled resolves without touching
    MSAL: no instance is constructed or initialized.  With a session in
    the store the state becomes authenticated with the stored user and no
    request is made.  Otherwise exactly one request is made, the POST to
    [/api/auth/dev] with the configured email and display name (or their
    defaults) and no avatar, and its answer decides: a response with
    [success] and a token gives the authenticated state with the user of
    the response and records the method ["dev"]; anything else gives the
    error "Development login failed" and leaves [isAuthenticated] as it
    was.  [loading] is [false] at the end in every case. *)
Theorem dev_startup_resolution
  (P : Platform) (msalInstance : option MsalApp) (msalInitialized : bool)
  (w : World) (dev_enabled : isDevAuthEnabled P = true) :
  let request := dev_request P (default_dev_identity P) in
  let w' := snd (initializeMsal P msalInstance msalInitialized w) in
  fst (initializeMsal P msalInstance msalInitialized w) = Ok tt
  /\ request =
       VObj [("email", getClientEnv P "REACT_APP_DEV_TEST_EMAIL" (VStr "dev@local.test"));
             ("displayName", getClientEnv P "REACT_APP_DEV_DISPLAYNAME" (VStr "Developer"));
             ("avatar", VNull)]
  /\ exists t,
       trace w' = trace w ++ t
       /\ List.filter is_msal t = []
       /\ s_loading w' = false
       /\ if session_stored P (storage w)
          then List.filter is_post t = []
               /\ s_isAuthenticated w' = true
               /\ s_userData w' = stored_user (storage w)
          else List.filter is_post t = [HttpPost dev_url request]
               /\ if exchange_succeeded (axios_post P dev_url request)
                  then s_isAuthenticated w' = true
                       /\ storage w' !! AUTH_METHOD_KEY = Some "dev"
                       /\ forall data,
                            axios_post P dev_url request = Response data ->
                            s_userData w' = response_user data
                  else s_error w' = VStr "Development login failed"
                       /\ s_isAuthenticated w' = s_isAuthenticated w
                       /\ storage w' = storage w.
Proof.
  intros request w'. subst w'.
  split; [|split; [apply dev_request_default|]].
  - destruct (session_stored P (storage w)) eqn:Hs.
    + by rewrite initializeMsal_dev_restores.
    + destruct (exchange_succeeded (axios_post P dev_url request)) eqn:Hok.
      * destruct (axios_post P dev_url request) as [data|] eqn:Hpost;
          [|discriminate].
        destruct (initializeMsal_dev_exchange_ok P msalInstance
                    msalInitialized dev_enabled w data Hs Hpost Hok)
          as (w1 & t & -> & _). done.
      * by rewrite initializeMsal_dev_exchange_failed.
  - destruct (session_stored P (storage w)) eqn:Hs.
    + rewrite initializeMsal_dev_restores by done. cbn.
      eexists. split; [reflexivity|]. done.
    + destruct (exchange_succeeded (axios_post P dev_url request)) eqn:Hok.
      * destruct (axios_post P dev_url request) as [data|] eqn:Hpost;
          [|discriminate].
        destruct (initializeMsal_dev_exchange_ok P msalInstance
                    msalInitialized dev_enabled w data Hs Hpost Hok)
          as (w1 & t & -> & Hsilent).
        destruct (listener_effects_silent t Hsilent) as [Hposts Hmsal].
        cbn [snd trace s_loading s_isAuthenticated s_userData storage].
        eexists. split; [reflexivity|].
        split; [|split; [done|split; [|split; [done|split]]]].
        -- cbn. rewrite (filter_app_nil is_msal t _ Hmsal). done.
        -- cbn. rewrite (filter_app_nil is_post t _ Hposts). done.
        -- apply lookup_insert_eq.
        -- intros data' [= <-]. done.
      * rewrite initializeMsal_dev_exchange_failed by done. cbn.
        eexists. split; [reflexivity|]. done.
Qed.

(** C7 at sample inputs: on [localhost] with an empty store the backend
    answers with a token and a user, and startup ends authenticated; with
    the session [{ token: "abc", user: { id: 1, ... } }] in the store
    startup ends authenticated with that user. *)
Lemma dev_startup_resolution_witness :
  (s_isAuthenticated
     (snd (initializeMsal answering_platform None false (initial_world ∅ true)))
   = true
   /\ s_loading
        (snd (initializeMsal answering_platform None false
                (initial_world ∅ true)))
      = false)
  /\ (s_isAuthenticated
        (snd (initializeMsal dev_platform None false
                (initial_world sample_session_store true)))
      = true
      /\ s_userData
           (snd (initializeMsal dev_platform None false
                   (initial_world sample_session_store true)))
         = stored_user sample_session_store).
Proof.
  split.
  - pose proof (dev_startup_resolution answering_platform None false
                  (initial_world ∅ true) eq_refl) as H.
    cbv zeta in H. destruct H as (_ & _ & t & _ & _ & Hl & Hif).
    change (session_stored answering_platform (storage (initial_world ∅ true)))
      with false in Hif.
    destruct Hif as (_ & Hif).
    change (exchange_succeeded
              (axios_post answering_platform dev_url
                 (dev_request answering_platform
                    (default_dev_identity answering_platform))))
      with true in Hif.
    destruct Hif as (Ha & _).
    exact (conj Ha Hl).
  - pose proof (dev_startup_resolution dev_platform None false
                  (initial_world sample_session_store true) eq_refl) as H.
    cbv zeta in H. destruct H as (_ & _ & t & _ & _ & Hl & Hif).
    assert (Hst : session_stored dev_platform
                    (storage (initial_world sample_session_store true)) = true)
      by (vm_compute; reflexivity).
    rewrite Hst in Hif.
    destruct Hif as (_ & Ha & Hu).
    exact (conj Ha Hu).
Defined.

(* ===================================================================== *)
(** ** The Token Store *)
(* ===================================================================== *)

(** What [getUser] reads after [setUser(u)], for a serializable [u]. *)
Lemma stored_user_after_setUser (u : value) (st : gmap string string) :
  json_serializable u = true ->
  stored_user (<[USER_KEY := js_ToString (JSON_stringify u)]> st) = u.
Proof.
  intros Hser.
  destruct (JsonRoundTrip.parse_stringify u Hser) as (s & Hs & Hp & Hne).
  unfold stored_user, JSON_stringify. rewrite Hs. cbn [js_ToString].
  rewrite lookup_insert_eq.
  destruct (String.eqb_spec s "") as [->|_]; [done|].
  cbn. by rewrite Hp.
Qed.

(** C9.  After [setToken(t); setUser(u)], for any string [t] and any
    serializable [u], [getToken()] gives [t] and [getUser()] gives [u];
    after [clearAuthData()], on any store, [getToken()] and [getUser()]
    both give [null]. *)
Theorem token_store_round_trip (t : string) (u : value) (w : World)
  (serializable : json_serializable u = true) :
  (let w1 := snd ((setToken (VStr t) ;; setUser u) w) in
   fst (getToken w1) = Ok (Some t) /\ fst (getUser w1) = Ok u)
  /\ (let w2 := snd (clearAuthData w) in
      fst (getToken w2) = Ok None /\ fst (getUser w2) = Ok VNull).
Proof.
  split; cbn zeta.
  - split.
    + unfold getToken. run.
      rewrite lookup_insert_ne by done. by rewrite lookup_insert_eq.
    + rewrite getUser_run. cbn [fst]. f_equal.
      unfold setToken, setUser. run.
      by apply stored_user_after_setUser.
  - split.
    + unfold getToken. run.
      rewrite lookup_delete_ne by done. by rewrite lookup_delete_eq.
    + rewrite getUser_run. cbn [fst]. f_equal.
      unfold stored_user. run. by rewrite lookup_delete_eq.
Qed.

(** C9 at a sample input: the token ["abc"] and the user
    [{ id: 1, displayName: "Ada" }], written to the store of a provider
    session. *)
Lemma token_store_round_trip_witness :
  let w := initial_world msal_session_store false in
  (let w1 := snd ((setToken (VStr "abc") ;; setUser sample_user) w) in
   fst (getToken w1) = Ok (Some "abc") /\ fst (getUser w1) = Ok sample_user)
  /\ (let w2 := snd (clearAuthData w) in
      fst (getToken w2) = Ok None /\ fst (getUser w2) = Ok VNull).
Proof.
  exact (token_store_round_trip "abc" sample_user
           (initial_world msal_session_store false) eq_refl).
Defined.

(* ===================================================================== *)
(** ** The provider exchange without a user in the response *)
(* ===================================================================== *)

Lemma user_from_info_serializable (userInfo : UserInfo) :
  json_serializable (user_from_info userInfo) = true.
Proof. reflexivity. Qed.

(** C10.  When the response has [success] and a token and its user is
    missing (or falsy), [exchangeAzureToken] does not fail: it returns the
    token, and what it stores next to the token is the record
    [{ id, displayName, email }] made from its argument, which is what
    [getUser()] reads afterwards. *)
Theorem exchangeAzureToken_synthesizes_user
  (P : Platform) (userInfo : UserInfo) (data : value) (w : World)
  (answered : axios_post P azure_url (azure_request userInfo) = Response data)
  (succeeded : exchange_succeeded (Response data) = true)
  (no_user : truthy (response_user data) = false) :
  let w' := snd (exchangeAzureToken P userInfo w) in
  fst (exchangeAzureToken P userInfo w) = Ok (response_token data)
  /\ storage w' =
       store_session (response_token data) (user_from_info userInfo) (storage w)
  /\ storage w' !! TOKEN_KEY = Some (js_ToString (response_token data))
  /\ fst (getUser w') = Ok (user_from_info userInfo)
  /\ user_from_info userInfo =
       VObj [("id", VStr (info_id userInfo));
             ("displayName", VStr (info_displayName userInfo));
             ("email", VStr (info_email userInfo))].
Proof.
  cbn zeta.
  rewrite (exchangeAzureToken_success P userInfo data w answered succeeded).
  cbn [fst snd storage]. unfold js_or. rewrite no_user.
  split; [done|]. split; [done|]. split; [|split; [|done]].
  - unfold store_session. rewrite lookup_insert_ne by done.
    by rewrite lookup_insert_eq.
  - rewrite getUser_run. cbn [fst storage]. f_equal.
    unfold store_session. apply stored_user_after_setUser.
    apply user_from_info_serializable.
Qed.

(** C10 at a sample input: the body
    [{ success: true, data: { token: "jwt" } }]. *)
Lemma exchangeAzureToken_synthesizes_user_witness :
  let P := sample_platform "localhost" (Response success_body_without_user) in
  let w := initial_world ∅ true in
  let w' := snd (exchangeAzureToken P sample_info w) in
  fst (exchangeAzureToken P sample_info w) = Ok (VStr "jwt")
  /\ storage w' =
       store_session (VStr "jwt") (user_from_info sample_info) ∅
  /\ storage w' !! TOKEN_KEY = Some "jwt"
  /\ fst (getUser w') = Ok (user_from_info sample_info)
  /\ user_from_info sample_info =
       VObj [("id", VStr "a-1"); ("displayName", VStr "Ada");
             ("email", VStr "ada@example.org")].
Proof.
  exact (exchangeAzureToken_synthesizes_user
           (sample_platform "localhost" (Response success_body_without_user))
           sample_info success_body_without_user (initial_world ∅ true)
           eq_refl eq_refl eq_refl).
Defined.

(* ===================================================================== *)
(** ** More on the Token Store and the listener *)
(* ===================================================================== *)

(** X1.  [getAuthHeaders()] and [isAuthenticated()] agree on every store
    and change nothing: the headers hold [Authorization: Bearer <token>]
    exactly when [isAuthenticated()] is [true], and are the empty object
    otherwise (no token, or an empty one). *)
Theorem getAuthHeaders_agrees_with_isAuthenticated (w : World) :
  exists (b : bool) (h : value),
    isAuthenticated w = (Ok b, w)
    /\ getAuthHeaders w = (Ok h, w)
    /\ (b = true ->
        exists t, storage w !! TOKEN_KEY = Some t /\ t <> ""
                  /\ h = VObj [("Authorization", VStr ("Bearer " +:+ t))])
    /\ (b = false -> h = VObj []).
Proof.
  destruct w as [st ia ud er lo mi mn li tr].
  unfold isAuthenticated, getAuthHeaders. run.
  destruct (st !! TOKEN_KEY) as [t|] eqn:Ht.
  - destruct (String.eqb_spec t "") as [->|Hne]; cbn [negb].
    + eexists _, _. split; [reflexivity|]. split; [reflexivity|].
      split; [discriminate|done].
    + eexists _, _. split; [reflexivity|]. split; [reflexivity|].
      split; [|discriminate]. intros _. exists t. done.
  - eexists _, _. split; [reflexivity|]. split; [reflexivity|].
    split; [discriminate|done].
Qed.

(** X1 on a store that holds the token ["abc"]. *)
Lemma getAuthHeaders_agrees_with_isAuthenticated_witness :
  fst (getAuthHeaders (initial_world token_only_store true))
  = Ok (VObj [("Authorization", VStr "Bearer abc")]).
Proof.
  destruct (getAuthHeaders_agrees_with_isAuthenticated
              (initial_world token_only_store true))
    as (b & h & Hb & Hh & Htrue & _).
  rewrite Hh. cbn [fst].
  assert (Hlookup : token_only_store !! TOKEN_KEY = Some "abc")
    by (vm_compute; reflexivity).
  assert (Hbtrue : b = true).
  { unfold isAuthenticated, bind, getToken, localStorage_getItem, ret,
      initial_world in Hb.
    cbn [storage] in Hb. rewrite Hlookup in Hb. cbn in Hb. congruence. }
  destruct (Htrue Hbtrue) as (t & Ht & _ & ->).
  cbn [storage initial_world] in Ht. rewrite Hlookup in Ht.
  injection Ht as <-. reflexivity.
Defined.

(** What [getUser] reads depends on the key of the user record alone. *)
Lemma stored_user_delete_user (st : gmap string string) :
  stored_user (delete USER_KEY st) = VNull.
Proof. unfold stored_user. by rewrite lookup_delete_eq. Qed.

(** X2.  After [logout()], whatever the MSAL instance and whatever its
    sign-out answers, the store authenticates nobody:
    [isAuthenticated()] is [false], [getAuthHeaders()] is the empty
    object, [getUser()] is [null], and a later [nextbi:auth-changed]
    event leaves the controller unauthenticated with no user. *)
Theorem after_logout_nothing_authenticates
  (msalInstance : option MsalApp) (w : World) :
  let w' := snd (logout msalInstance w) in
  fst (isAuthenticated w') = Ok false
  /\ fst (getAuthHeaders w') = Ok (VObj [])
  /\ fst (getUser w') = Ok VNull
  /\ s_isAuthenticated (snd (auth_changed_handler w')) = false
  /\ s_userData (snd (auth_changed_handler w')) = VNull.
Proof.
  destruct (logout_run msalInstance w) as (popup & -> & _).
  cbn [snd]. rewrite getUser_run, auth_changed_handler_run.
  cbn [storage fst snd]. rewrite stored_user_delete_user.
  cbn [truthy s_isAuthenticated s_userData].
  unfold isAuthenticated, getAuthHeaders. run.
  rewrite lookup_delete_ne by done. rewrite lookup_delete_eq. done.
Qed.

(** X3.  [getUser()] never throws and never writes: it gives [null] when
    the key is absent, when its text is empty and when its text is not
    JSON, as after [setUser(undefined)], which stores the text
    ["undefined"]. *)
Theorem getUser_null_on_missing_or_corrupt (w : World) :
  (exists u, getUser w = (Ok u, w))
  /\ (storage w !! USER_KEY = None -> getUser w = (Ok VNull, w))
  /\ (storage w !! USER_KEY = Some "" -> getUser w = (Ok VNull, w))
  /\ (forall s, storage w !! USER_KEY = Some s -> Json.parse s = None ->
                getUser w = (Ok VNull, w))
  /\ (let w' := snd (setUser VUndefined w) in
      storage w' !! USER_KEY = Some "undefined"
      /\ fst (getUser w') = Ok VNull).
Proof.
  rewrite getUser_run. unfold stored_user.
  split; [eauto|]. split; [by intros ->|]. split; [by intros ->|].
  split.
  - intros s -> ->. cbn [default from_option]. by destruct (negb _).
  - destruct w as [st ia ud er lo mi mn li tr]. cbn zeta.
    rewrite getUser_run. unfold stored_user, setUser. run.
    change (js_ToString (JSON_stringify VUndefined)) with "undefined".
    rewrite lookup_insert_eq. split; [done|].
    by vm_compute.
Qed.

(** X3 on a store whose user record is the text [{oops]. *)
Lemma getUser_null_on_missing_or_corrupt_witness :
  getUser (initial_world corrupt_user_store true)
  = (Ok VNull, initial_world corrupt_user_store true).
Proof.
  refine (proj1 (proj2 (proj2 (proj2
            (getUser_null_on_missing_or_corrupt
               (initial_world corrupt_user_store true)))))
            "{oops" _ _); vm_compute; reflexivity.
Defined.

(** X4.  The listener for [nextbi:auth-changed] never touches the store
    and its result depends on the store alone: running it a second time
    changes nothing in the state it recomputed. *)
Theorem auth_changed_handler_idempotent (w : World) :
  let w1 := snd (auth_changed_handler w) in
  let w2 := snd (auth_changed_handler w1) in
  storage w1 = storage w
  /\ storage w2 = storage w
  /\ s_isAuthenticated w2 = s_isAuthenticated w1
  /\ s_userData w2 = s_userData w1
  /\ s_error w2 = s_error w1
  /\ s_loading w2 = s_loading w.
Proof.
  destruct w as [st ia ud er lo mi mn li tr]. cbn zeta.
  rewrite auth_changed_handler_run. cbn [storage snd].
  destruct (truthy (stored_user st)) eqn:Hu;
    rewrite auth_changed_handler_run; cbn [storage snd]; rewrite Hu; done.
Qed.

(* ===================================================================== *)
(** ** Configuration *)
(* ===================================================================== *)

Lemma defined_not_undefined (o : option value) (v : value) :
  defined o = Some v -> v <> VUndefined.
Proof. destruct o as [[]|]; cbn; intros [= <-]; discriminate. Qed.

Lemma defined_some (v : value) : v <> VUndefined -> defined (Some v) = Some v.
Proof. by destruct v. Qed.

(** X5.  [getClientEnv(key, fallback)] reads [process.env] first, then
    [window.__env], then [window] itself, and skips a source whose value
    for the key is [undefined]; it gives the fallback only when no source
    defines the key, so with a defined fallback the result is never
    [undefined]. *)
Theorem getClientEnv_precedence (P : Platform) (key : string) (fallback : value) :
  let env := client_env P in
  let in_process := match process_env env with
                    | Some e => defined (e !! key)
                    | None => None
                    end in
  let in_window_env := match window_env env with
                       | Some e => defined (e !! key)
                       | None => None
                       end in
  let in_window := defined (window_props env !! key) in
  (forall v, in_process = Some v -> getClientEnv P key fallback = v)
  /\ (forall v, in_process = None -> in_window_env = Some v ->
                getClientEnv P key fallback = v)
  /\ (forall v, in_process = None -> in_window_env = None ->
                in_window = Some v -> getClientEnv P key fallback = v)
  /\ (in_process = None -> in_window_env = None -> in_window = None ->
      getClientEnv P key fallback = fallback)
  /\ (fallback <> VUndefined -> getClientEnv P key fallback <> VUndefined).
Proof.
  cbn zeta. unfold getClientEnv.
  destruct (process_env (client_env P)) as [pe|];
    destruct (window_env (client_env P)) as [we|].
  all: repeat match goal with
         | |- context [defined ?o] =>
             let H := fresh "H" in
             destruct (defined o) eqn:H;
             try apply defined_not_undefined in H
         end.
  all: repeat split; intros; simplify_eq; done.
Qed.

(** X5 where [process.env] holds the flag as [undefined] and
    [window.__env] sets it: the second source is the one read. *)
Lemma getClientEnv_precedence_witness :
  getClientEnv layered_platform "REACT_APP_DEV_AUTH" (VStr "false") = VStr "true".
Proof.
  refine (proj1 (proj2
            (getClientEnv_precedence layered_platform "REACT_APP_DEV_AUTH"
               (VStr "false")))
            (VStr "true") _ _); vm_compute; reflexivity.
Defined.

(** X6.  The two readings of "developer mode" differ in one direction
    only.  Whenever App's [DEV_AUTH] is on, the controller's
    [isDevAuthEnabled()] is on; on [localhost] and on [127.0.0.1] the
    controller's is on whatever the flag says, also when
    [REACT_APP_DEV_AUTH] is set to ["false"], where App's is off. *)
Theorem DEV_AUTH_implies_isDevAuthEnabled (P : Platform) :
  (DEV_AUTH P = true -> isDevAuthEnabled P = true)
  /\ (hostname (client_env P) = "localhost" -> isDevAuthEnabled P = true)
  /\ (hostname (client_env P) = "127.0.0.1" -> isDevAuthEnabled P = true)
  /\ (getClientEnv P "REACT_APP_DEV_AUTH" (VStr "false") = VStr "false" ->
      DEV_AUTH P = false)
  /\ (DEV_AUTH P = false ->
      hostname (client_env P) <> "localhost" ->
      hostname (client_env P) <> "127.0.0.1" ->
      isDevAuthEnabled P = false).
Proof.
  unfold DEV_AUTH, isDevAuthEnabled.
  split; [by intros ->|]. split; [intros ->; by destruct (strict_eq_str _ _)|].
  split; [intros ->; by destruct (strict_eq_str _ _)|].
  split; [by intros ->|].
  intros -> H1 H2.
  destruct (String.eqb_spec (hostname (client_env P)) "localhost"); [done|].
  destruct (String.eqb_spec (hostname (client_env P)) "127.0.0.1"); done.
Qed.

(** X6 at sample inputs: a page on [localhost] without the flag, and a
    page elsewhere. *)
Lemma DEV_AUTH_implies_isDevAuthEnabled_witness :
  (isDevAuthEnabled dev_platform = true /\ DEV_AUTH dev_platform = false)
  /\ isDevAuthEnabled provider_platform = false.
Proof.
  destruct (DEV_AUTH_implies_isDevAuthEnabled dev_platform)
    as (_ & Hl & _ & Hf & _).
  destruct (DEV_AUTH_implies_isDevAuthEnabled provider_platform)
    as (_ & _ & _ & Hf' & Hoff).
  split; [split|].
  - exact (Hl eq_refl).
  - exact (Hf eq_refl).
  - apply Hoff; [exact (Hf' eq_refl) | discriminate | discriminate].
Defined.

(* ===================================================================== *)
(** ** More on the exchange calls *)
(* ===================================================================== *)

(** X7.  [devLogin] never rejects.  It returns an object whose [success]
    is [true] exactly when the backend answered with a truthy [success]
    and a token, and the store is written in that case and in no other. *)
Theorem devLogin_never_rejects (P : Platform) (opts : value) (w : World) :
  let answer := axios_post P dev_url (dev_request P opts) in
  exists r w',
    devLogin P opts w = (Ok r, w')
    /\ opt_prop r "success" = VBool (exchange_succeeded answer)
    /\ storage w' =
         match answer with
         | Response data =>
             if exchange_succeeded answer
             then store_session (response_token data) (response_user data)
                    (storage w)
             else storage w
         | AxiosFailure _ _ => storage w
         end.
Proof.
  cbn zeta.
  destruct (exchange_succeeded (axios_post P dev_url (dev_request P opts)))
    eqn:Hok.
  - destruct (axios_post P dev_url (dev_request P opts)) as [data|] eqn:Hpost;
      [|discriminate].
    rewrite (devLogin_success P opts data w Hpost Hok).
    eexists _, _. split; [reflexivity|]. split; [reflexivity|].
    by rewrite after_dispatch_storage.
  - destruct (devLogin_failure P opts w Hok) as [err ->].
    eexists _, _. split; [reflexivity|]. split; [reflexivity|].
    by destruct (axios_post P dev_url (dev_request P opts)).
Qed.

(** A truthy token that is a string is not empty, and is stored as it
    is. *)
Lemma store_session_token (t : string) (user : value) (st : gmap string string) :
  store_session (VStr t) user st !! TOKEN_KEY = Some t.
Proof.
  unfold store_session. rewrite lookup_insert_ne by done.
  apply lookup_insert_eq.
Qed.

Lemma headers_of_stored_token (w : World) (t : string) :
  storage w !! TOKEN_KEY = Some t -> t <> "" ->
  fst (isAuthenticated w) = Ok true
  /\ fst (getAuthHeaders w) = Ok (VObj [("Authorization", VStr ("Bearer " +:+ t))])
  /\ fst (getToken w) = Ok (Some t).
Proof.
  destruct w as [st ia ud er lo mi mn li tr]. cbn [storage].
  intros Ht Hne. unfold isAuthenticated, getAuthHeaders. run. rewrite Ht.
  destruct (String.eqb_spec t ""); done.
Qed.

(** X8.  After a successful exchange whose token is a string, with either
    function, the store authenticates the caller: [isAuthenticated()] is
    [true], [getToken()] gives that token and [getAuthHeaders()] gives
    [Authorization: Bearer <token>]. *)
Theorem successful_exchange_then_authenticated
  (P : Platform) (userInfo : UserInfo) (opts : value) (w : World) :
  (forall data t,
     axios_post P azure_url (azure_request userInfo) = Response data ->
     exchange_succeeded (Response data) = true ->
     response_token data = VStr t ->
     let w' := snd (exchangeAzureToken P userInfo w) in
     fst (isAuthenticated w') = Ok true
     /\ fst (getAuthHeaders w')
        = Ok (VObj [("Authorization", VStr ("Bearer " +:+ t))])
     /\ fst (getToken w') = Ok (Some t))
  /\ (forall data t,
        axios_post P dev_url (dev_request P opts) = Response data ->
        exchange_succeeded (Response data) = true ->
        response_token data = VStr t ->
        let w' := snd (devLogin P opts w) in
        fst (isAuthenticated w') = Ok true
        /\ fst (getAuthHeaders w')
           = Ok (VObj [("Authorization", VStr ("Bearer " +:+ t))])
        /\ fst (getToken w') = Ok (Some t)).
Proof.
  split; intros data t Hpost Hok Ht; cbn zeta.
  - assert (Hne : t <> "").
    { intros ->. unfold exchange_succeeded in Hok.
      apply andb_prop in Hok as [_ Hok].
      unfold response_token in Ht. by rewrite Ht in Hok. }
    rewrite (exchangeAzureToken_success P userInfo data w Hpost Hok).
    cbn [snd]. apply headers_of_stored_token; [|done].
    cbn [storage]. rewrite Ht. apply store_session_token.
  - assert (Hne : t <> "").
    { intros ->. unfold exchange_succeeded in Hok.
      apply andb_prop in Hok as [_ Hok].
      unfold response_token in Ht. by rewrite Ht in Hok. }
    rewrite (devLogin_success P opts data w Hpost Hok).
    cbn [snd]. apply headers_of_stored_token; [|done].
    rewrite after_dispatch_storage. cbn [storage]. rewrite Ht.
    apply store_session_token.
Qed.

(** X8 at sample inputs: the body
    [{ success: true, data: { token: "jwt", user } }] for both calls. *)
Lemma successful_exchange_then_authenticated_witness :
  fst (getAuthHeaders
         (snd (exchangeAzureToken answering_platform sample_info
                 (initial_world ∅ true))))
    = Ok (VObj [("Authorization", VStr "Bearer jwt")])
  /\ fst (getAuthHeaders
            (snd (devLogin answering_platform VUndefined
                    (initial_world ∅ true))))
     = Ok (VObj [("Authorization", VStr "Bearer jwt")]).
Proof.
  destruct (successful_exchange_then_authenticated answering_platform
              sample_info VUndefined (initial_world ∅ true)) as [Ha Hd].
  split.
  - exact (proj1 (proj2 (Ha success_body "jwt" eq_refl eq_refl eq_refl))).
  - exact (proj1 (proj2 (Hd success_body "jwt" eq_refl eq_refl eq_refl))).
Defined.

(** A falsy user record reads back as a falsy value. *)
Lemma stored_user_of_falsy (user : value) (st : gmap string string) :
  truthy user = false ->
  truthy (stored_user (<[USER_KEY := js_ToString (JSON_stringify user)]> st))
  = false.
Proof.
  intros Hu.
  destruct user as [| |b|n|s|l|fs]; try discriminate.
  - unfold stored_user.
    change (js_ToString (JSON_stringify VUndefined)) with "undefined".
    rewrite lookup_insert_eq. by vm_compute.
  - by rewrite stored_user_after_setUser.
  - by rewrite stored_user_after_setUser.
  - by rewrite stored_user_after_setUser.
  - by rewrite stored_user_after_setUser.
Qed.

(** X9.  A developer login made outside the controller reaches it through
    the event.  With the listener registered, after a successful
    [devLogin] whose user record is serializable and truthy the controller
    is authenticated with that user and has no error; when the response
    carries no user (or a falsy one) the listener leaves the controller
    unauthenticated with no user, although the token is stored. *)
Theorem devLogin_listener_converges
  (P : Platform) (opts data : value) (w : World)
  (registered : listening w = true)
  (answered : axios_post P dev_url (dev_request P opts) = Response data)
  (succeeded : exchange_succeeded (Response data) = true) :
  let user := response_user data in
  let w' := snd (devLogin P opts w) in
  (json_serializable user = true -> truthy user = true ->
   s_isAuthenticated w' = true /\ s_userData w' = user /\ s_error w' = VNull)
  /\ (truthy user = false ->
      s_isAuthenticated w' = false /\ s_userData w' = VNull
      /\ storage w' !! TOKEN_KEY = Some (js_ToString (response_token data))).
Proof.
  cbn zeta. rewrite (devLogin_success P opts data w answered succeeded).
  cbn [snd]. unfold after_dispatch. cbn [listening]. rewrite registered.
  rewrite auth_changed_handler_run. cbn [storage snd].
  unfold store_session. split.
  - intros Hser Hu. rewrite stored_user_after_setUser by done.
    rewrite Hu. done.
  - intros Hu. rewrite stored_user_of_falsy by done.
    cbn [s_isAuthenticated s_userData storage]. split; [done|]. split; [done|].
    rewrite lookup_insert_ne by done. apply lookup_insert_eq.
Qed.

(** X9 at sample inputs: a response with a user, and one without. *)
Lemma devLogin_listener_converges_witness :
  (s_isAuthenticated
     (snd (devLogin answering_platform VUndefined (initial_world ∅ true)))
   = true
   /\ s_userData
        (snd (devLogin answering_platform VUndefined (initial_world ∅ true)))
      = sample_user)
  /\ s_isAuthenticated
       (snd (devLogin
               (sample_platform "localhost" (Response success_body_without_user))
               VUndefined (initial_world ∅ true)))
     = false.
Proof.
  split.
  - destruct (devLogin_listener_converges answering_platform VUndefined
                success_body (initial_world ∅ true) eq_refl eq_refl eq_refl)
      as [H _].
    destruct (H eq_refl eq_refl) as (Ha & Hu & _).
    exact (conj Ha Hu).
  - destruct (devLogin_listener_converges
                (sample_platform "localhost" (Response success_body_without_user))
                VUndefined success_body_without_user (initial_world ∅ true)
                eq_refl eq_refl eq_refl)
      as [_ H].
    exact (proj1 (H eq_refl)).
Defined.

(* ===================================================================== *)
(** ** The exchange inside the controller *)
(* ===================================================================== *)

(** X10.  [exchangeTokenForJWT] never rejects, whatever [loginWithAzure]
    does.  When [loginWithAzure] resolves with a truthy [success] the
    controller becomes authenticated with the user of the result, clears
    the error, records the method ["msal"] and navigates to [/]; when it
    rejects or resolves without [success] the only change is the error
    "Failed to authenticate with backend.". *)
Theorem exchangeTokenForJWT_never_rejects
  (P : Platform) (acct : AccountInfo) (w : World) :
  let exchanged := loginWithAzure P acct w in
  let w1 := snd exchanged in
  let w' := snd (exchangeTokenForJWT P acct w) in
  let failed :=
    s_error w' = VStr "Failed to authenticate with backend."
    /\ storage w' = storage w1
    /\ s_isAuthenticated w' = s_isAuthenticated w1
    /\ s_userData w' = s_userData w1
    /\ trace w' = trace w1 ++ [SetError (VStr "Failed to authenticate with backend.")] in
  fst (exchangeTokenForJWT P acct w) = Ok tt
  /\ match fst exchanged with
     | Ok result =>
         if truthy (opt_prop result "success")
         then s_isAuthenticated w' = true
              /\ s_userData w' = opt_prop result "user"
              /\ s_error w' = VNull
              /\ storage w' = <[AUTH_METHOD_KEY := "msal"]> (storage w1)
              /\ last (trace w') = Some (Navigate "/")
         else failed
     | Throw _ => failed
     end.
Proof.
  cbn zeta. unfold exchangeTokenForJWT. run.
  destruct (loginWithAzure P acct w) as [[result|e] [st ia ud er lo mi mn li tr]];
    run; [|done].
  destruct (truthy (opt_prop result "success")) eqn:Hs; run; [|done].
  destruct (truthy_opt_prop_object _ _ Hs) as [fs ->].
  rewrite prop_of_object. run.
  split; [done|]. split; [done|]. split; [done|]. split; [done|].
  split; [done|]. apply last_snoc.
Qed.

Lemma exchangeTokenForJWT_ok (P : Platform) (acct : AccountInfo) (w : World) :
  exists w', exchangeTokenForJWT P acct w = (Ok tt, w').
Proof.
  unfold exchangeTokenForJWT. run.
  destruct (loginWithAzure P acct w) as [[result|e] [st ia ud er lo mi mn li tr]];
    run; [|eauto].
  destruct (truthy (opt_prop result "success")) eqn:Hs; run; [|eauto].
  destruct (truthy_opt_prop_object _ _ Hs) as [fs ->].
  rewrite prop_of_object. run. eauto.
Qed.

(* ===================================================================== *)
(** ** Startup through the identity provider *)
(* ===================================================================== *)

Lemma catch_all_then_finally (m : M unit) (e : value) (w : World) :
  fst (try_finally (try_catch m (fun _ => setError e)) (setLoading false) w)
  = Ok tt.
Proof.
  unfold try_finally, try_catch.
  destruct (m w) as [[[]|x] [st ia ud er lo mi mn li tr]]; run; done.
Qed.

(** One step over a call of [exchangeTokenForJWT], which resolves. *)
Ltac exchange_step P :=
  match goal with
  | |- context [exchangeTokenForJWT P ?a ?w1] =>
      destruct (exchangeTokenForJWT_ok P a w1) as [[? ? ? ? ? ? ? ? ?] ->]
  end;
  run; rewrite <- ?app_assoc; try done.

Ltac start_provider w Hmode :=
  destruct w as [st ia ud er lo mi mn li tr];
  unfold initializeMsal; rewrite Hmode; unfold initializeMsal_provider;
  cbn [orb]; rewrite ?bool_decide_eq_false_2 by (by intros [? ?]);
  cbn [orb]; run.

(** X11.  Startup never rejects, in either mode.  In provider mode a
    failure of MSAL is turned into the error "Failed to initialize
    authentication." with [loading = false]: when the constructor or
    [initialize()] throws no instance is kept, when
    [handleRedirectPromise()] rejects the instance is kept; nothing else
    of the state changes and the backend is not asked. *)
Theorem initializeMsal_fails_softly
  (P : Platform) (msalInstance : option MsalApp) (msalInitialized : bool)
  (w : World) :
  fst (initializeMsal P msalInstance msalInitialized w) = Ok tt
  /\ (isDevAuthEnabled P = false ->
      (forall e, msal_new P = Throw e ->
         initializeMsal P None false w
         = (Ok tt,
            after_failed_startup w (s_msalInstance w) (s_msalInitialized w)
              [MsalConstruct]))
      /\ (forall app e,
            msal_new P = Ok app -> msal_initialize app = Throw e ->
            initializeMsal P None false w
            = (Ok tt,
               after_failed_startup w (s_msalInstance w) (s_msalInitialized w)
                 [MsalConstruct; MsalInitialize]))
      /\ (forall app e,
            msal_new P = Ok app -> msal_initialize app = Ok tt ->
            msal_handleRedirectPromise app = Throw e ->
            initializeMsal P None false w
            = (Ok tt,
               after_failed_startup w (Some app) true
                 [MsalConstruct; MsalInitialize; SetMsalInstance;
                  SetMsalInitialized true; MsalAddEventCallback;
                  MsalHandleRedirectPromise]))).
Proof.
  split; [apply catch_all_then_finally|].
  intros Hmode. unfold after_failed_startup. repeat split.
  - intros e Hnew. start_provider w Hmode. rewrite Hnew. run.
    by rewrite <- !app_assoc.
  - intros app e Hnew Hinit. start_provider w Hmode. rewrite Hnew. run.
    rewrite Hinit. run. by rewrite <- !app_assoc.
  - intros app e Hnew Hinit Hredirect. start_provider w Hmode.
    rewrite Hnew. run. rewrite Hinit. run. rewrite Hredirect. run.
    by rewrite <- !app_assoc.
Qed.

(** X11 at sample inputs: MSAL cannot be constructed; MSAL is constructed
    and its [initialize()] rejects. *)
Lemma initializeMsal_fails_softly_witness :
  initializeMsal provider_platform None false (initial_world ∅ true)
    = (Ok tt,
       after_failed_startup (initial_world ∅ true) None false [MsalConstruct])
  /\ initializeMsal
       (msal_platform (fresh_app (Throw (js_Error "no network")))
          (Throw (js_Error "unused")))
       None false (initial_world ∅ true)
     = (Ok tt,
        after_failed_startup (initial_world ∅ true) None false
          [MsalConstruct; MsalInitialize]).
Proof.
  split.
  - destruct (initializeMsal_fails_softly provider_platform None false
                (initial_world ∅ true)) as [_ H].
    destruct (H eq_refl) as (Ha & _).
    exact (Ha (js_Error "no MSAL") eq_refl).
  - destruct (initializeMsal_fails_softly
                (msal_platform (fresh_app (Throw (js_Error "no network")))
                   (Throw (js_Error "unused")))
                None false (initial_world ∅ true)) as [_ H].
    destruct (H eq_refl) as (_ & Hb & _).
    exact (Hb _ (js_Error "no network") eq_refl eq_refl).
Defined.

(** X12.  In provider mode a second run of startup is a no-op: when the
    closure holds an MSAL instance, or the initialized flag, nothing is
    constructed or initialized again and the only effect is
    [setLoading(false)]. *)
Theorem initializeMsal_second_run_is_noop
  (P : Platform) (msalInstance : option MsalApp) (msalInitialized : bool)
  (w : World)
  (provider_mode : isDevAuthEnabled P = false)
  (already : msalInitialized = true \/ is_Some msalInstance) :
  initializeMsal P msalInstance msalInitialized w = (Ok tt, loading_done w).
Proof.
  destruct w as [st ia ud er lo mi mn li tr].
  unfold initializeMsal, loading_done. rewrite provider_mode.
  unfold initializeMsal_provider.
  assert (Hguard : msalInitialized || bool_decide (is_Some msalInstance) = true).
  { destruct already as [->|Hsome]; [done|].
    rewrite (bool_decide_eq_true_2 _ Hsome). by destruct msalInitialized. }
  rewrite Hguard. run. done.
Qed.

(** X12 at a sample input: the closure holds an instance. *)
Lemma initializeMsal_second_run_is_noop_witness :
  initializeMsal provider_platform (Some rejecting_app) false
    (initial_world ∅ true)
  = (Ok tt, loading_done (initial_world ∅ true)).
Proof.
  exact (initializeMsal_second_run_is_noop provider_platform
           (Some rejecting_app) false (initial_world ∅ true) eq_refl
           (or_intror (ex_intro _ rejecting_app eq_refl))).
Defined.

(** X13.  Provider startup, once MSAL has started, resolves in this
    order.  A redirect response with an account is exchanged at once, also
    when a session is stored.  Without one, a stored session and user are
    trusted as they are: the controller becomes authenticated with the
    stored user and [loginWithAzure] is not called.  Without a session the
    first cached account is exchanged; without any account the state stays
    unauthenticated and the error is untouched.  [loading] ends [false]
    each time. *)
Theorem provider_startup_resolution
  (P : Platform) (app : MsalApp) (w : World)
  (provider_mode : isDevAuthEnabled P = false)
  (constructed : msal_new P = Ok app)
  (started : msal_initialize app = Ok tt)
  (response : option AuthenticationResult)
  (redirected : msal_handleRedirectPromise app = Ok response) :
  let w0 := after_msal_startup app w in
  match redirect_account response with
  | Some acct =>
      initializeMsal P None false w
      = (Ok tt, loading_done (snd (exchangeTokenForJWT P acct w0)))
  | None =>
      if session_stored P (storage w)
      then initializeMsal P None false w
           = (Ok tt,
              loading_done
                (mkWorld (storage w) true (stored_user (storage w))
                   (s_error w) (s_loading w) (Some app) true (listening w)
                   (trace w0 ++ [SetUserData (stored_user (storage w));
                                 SetIsAuthenticated true])))
      else match msal_getAllAccounts app with
           | acct :: _ =>
               initializeMsal P None false w
               = (Ok tt, loading_done (snd (exchangeTokenForJWT P acct w0)))
           | [] => initializeMsal P None false w = (Ok tt, loading_done w0)
           end
  end.
Proof.
  cbn zeta. unfold after_msal_startup, loading_done, session_stored.
  destruct w as [st ia ud er lo mi mn li tr].
  cbn [storage s_isAuthenticated s_userData s_error s_loading listening trace].
  unfold initializeMsal. rewrite provider_mode.
  unfold initializeMsal_provider. cbn [orb].
  rewrite bool_decide_eq_false_2 by (by intros [? ?]).
  run. rewrite constructed. run. rewrite started. run.
  rewrite redirected. run. rewrite <- !app_assoc. cbn [List.app].
  destruct response as [[[acct|] tok]|]; cbn [redirect_account account].
  - exchange_step P.
  - rewrite getUser_run. run.
    destruct (truthy (getStoredSession P st) && truthy (stored_user st)).
    + run. by rewrite <- !app_assoc.
    + destruct (msal_getAllAccounts app) as [|acct others];
        [run; by rewrite <- ?app_assoc|].
      exchange_step P.
  - rewrite getUser_run. run.
    destruct (truthy (getStoredSession P st) && truthy (stored_user st)).
    + run. by rewrite <- !app_assoc.
    + destruct (msal_getAllAccounts app) as [|acct others];
        [run; by rewrite <- ?app_assoc|].
      exchange_step P.
Qed.

(** X13 at sample inputs: MSAL starts with no redirect response and no
    cached account; with the session [{ token: "abc", user }] stored the
    controller ends authenticated, with an empty store it ends as it
    began. *)
Lemma provider_startup_resolution_witness :
  (let P := msal_platform (fresh_app (Ok tt)) (Throw (js_Error "unused")) in
   let w := initial_world sample_session_store true in
   initializeMsal P None false w
   = (Ok tt,
      loading_done
        (mkWorld sample_session_store true (stored_user sample_session_store)
           VNull true (Some (fresh_app (Ok tt))) true true
           (trace (after_msal_startup (fresh_app (Ok tt)) w)
            ++ [SetUserData (stored_user sample_session_store);
                SetIsAuthenticated true]))))
  /\ (let P := msal_platform (fresh_app (Ok tt)) (Throw (js_Error "unused")) in
      let w := initial_world ∅ true in
      initializeMsal P None false w
      = (Ok tt, loading_done (after_msal_startup (fresh_app (Ok tt)) w))).
Proof.
  split.
  - exact (provider_startup_resolution
             (msal_platform (fresh_app (Ok tt)) (Throw (js_Error "unused")))
             (fresh_app (Ok tt)) (initial_world sample_session_store true)
             eq_refl eq_refl eq_refl None eq_refl).
  - exact (provider_startup_resolution
             (msal_platform (fresh_app (Ok tt)) (Throw (js_Error "unused")))
             (fresh_app (Ok tt)) (initial_world ∅ true)
             eq_refl eq_refl eq_refl None eq_refl).
Defined.

(* ===================================================================== *)
(** ** Error messages of the interactive login *)
(* ===================================================================== *)

Lemma prefix_append (n post : string) : String.prefix n (n +:+ post) = true.
Proof.
  induction n as [|a n IH]; [by destruct post|].
  change (String.prefix (String a n) (String a n +:+ post))
    with (if ascii_dec a a then String.prefix n (n +:+ post) else false).
  destruct (ascii_dec a a); [exact IH | done].
Qed.

Lemma includes_unfold (n hay : string) :
  includes n hay =
    String.prefix n hay
    || match hay with
       | EmptyString => false
       | String _ r => includes n r
       end.
Proof. by destruct hay. Qed.

(** [includes] finds a text wherever it occurs. *)
Lemma includes_infix (n pre post : string) :
  includes n (pre +:+ n +:+ post) = true.
Proof.
  induction pre as [|a pre IH].
  - change ("" +:+ n +:+ post) with (n +:+ post).
    by rewrite includes_unfold, prefix_append.
  - change (String a pre +:+ n +:+ post)
      with (String a (pre +:+ n +:+ post)).
    rewrite includes_unfold, IH. apply orb_true_r.
Qed.

Lemma prop_of_truthy_value (v : value) (k : string) :
  truthy v = true -> prop v k = inl (opt_prop v k).
Proof. by destruct v. Qed.

(** [getFriendlyAuthError] in one equation: it classifies the text of the
    error when that is a string, looks for the three markers as elements
    when it is an array, and throws when it is anything else. *)
Lemma getFriendlyAuthError_run (err : value) (w : World) :
  getFriendlyAuthError err w =
    (match auth_error_text err with
     | VStr m => Ok (classify_text m)
     | VArr l =>
         if existsb (fun x => strict_eq_str x "AADSTS50020") l
         then Ok (VStr tenant_mismatch_message)
         else if existsb (fun x => strict_eq_str x "user_cancelled") l
                 || existsb (fun x => strict_eq_str x "Popup window closed") l
              then Ok (VStr cancelled_message)
              else Ok (VArr l)
     | _ => Throw includes_TypeError
     end, w).
Proof.
  destruct w as [st ia ud er lo mi mn li tr].
  unfold getFriendlyAuthError, auth_error_text.
  destruct (truthy err) eqn:Herr.
  - rewrite !(prop_of_truthy_value err) by done. run.
    destruct (js_or (js_or (opt_prop err "message")
                       (js_or (opt_prop err "error") (VStr (js_ToString err))))
                (VStr "")) as [| |b|n|m|l|fs] eqn:Hmsg;
      unfold js_includes; run; try done.
    + unfold classify_text. destruct (includes "AADSTS50020" m); run; [done|].
      destruct (includes "user_cancelled" m); run; [done|].
      destruct (includes "Popup window closed" m); run; [done|].
      cbn [orb truthy]. by destruct (negb (String.eqb m "")).
    + destruct (existsb _ l); run; [done|].
      destruct (existsb _ l); run; [done|].
      destruct (existsb _ l); run; done.
  - run. unfold js_or. rewrite Herr. cbn [truthy String.eqb negb].
    unfold js_includes. run. done.
Qed.

Lemma auth_error_text_of_message (err : value) (m : string) :
  opt_prop err "message" = VStr m -> m <> "" -> auth_error_text err = VStr m.
Proof.
  intros Hm Hne. unfold auth_error_text.
  assert (Htruthy : truthy (VStr m) = true).
  { cbn. by destruct (String.eqb_spec m ""). }
  destruct err; try discriminate. cbn [truthy].
  rewrite Hm. unfold js_or. by rewrite !Htruthy.
Qed.

(** X14.  For an error whose [message] is a non-empty string,
    [getFriendlyAuthError] gives the tenant guidance as soon as the
    message contains ["AADSTS50020"], also when it contains a cancellation
    marker as well; otherwise the retry hint when it contains
    ["user_cancelled"] or ["Popup window closed"]; otherwise the message
    itself, unchanged.  It changes nothing and does not throw. *)
Theorem getFriendlyAuthError_classifies
  (err : value) (m : string) (w : World)
  (has_message : opt_prop err "message" = VStr m) (nonempty : m <> "") :
  (forall pre post,
     m = pre +:+ "AADSTS50020" +:+ post ->
     getFriendlyAuthError err w = (Ok (VStr tenant_mismatch_message), w))
  /\ (forall pre post,
        includes "AADSTS50020" m = false ->
        m = pre +:+ "user_cancelled" +:+ post
        \/ m = pre +:+ "Popup window closed" +:+ post ->
        getFriendlyAuthError err w = (Ok (VStr cancelled_message), w))
  /\ (includes "AADSTS50020" m = false ->
      includes "user_cancelled" m = false ->
      includes "Popup window closed" m = false ->
      getFriendlyAuthError err w = (Ok (VStr m), w)).
Proof.
  rewrite getFriendlyAuthError_run.
  rewrite (auth_error_text_of_message err m has_message nonempty).
  unfold classify_text. repeat split.
  - intros pre post ->. by rewrite includes_infix.
  - intros pre post -> [Hm|Hm].
    + assert (Hin : includes "user_cancelled" m = true)
        by (rewrite Hm; apply includes_infix).
      by rewrite Hin.
    + assert (Hin : includes "Popup window closed" m = true)
        by (rewrite Hm; apply includes_infix).
      rewrite Hin. by rewrite orb_true_r.
  - intros -> -> ->. cbn [orb]. by destruct (String.eqb_spec m "").
Qed.

(** X14 at sample inputs: a tenant error that also says the popup was
    closed, a cancellation, and another error. *)
Lemma getFriendlyAuthError_classifies_witness :
  fst (getFriendlyAuthError
         (js_Error "AADSTS50020: not in tenant. Popup window closed")
         (initial_world ∅ true))
    = Ok (VStr tenant_mismatch_message)
  /\ fst (getFriendlyAuthError (js_Error "user_cancelled: closed by user")
            (initial_world ∅ true))
     = Ok (VStr cancelled_message)
  /\ fst (getFriendlyAuthError (js_Error "network down") (initial_world ∅ true))
     = Ok (VStr "network down").
Proof.
  split; [|split].
  - destruct (getFriendlyAuthError_classifies
                (js_Error "AADSTS50020: not in tenant. Popup window closed")
                "AADSTS50020: not in tenant. Popup window closed"
                (initial_world ∅ true) eq_refl) as (H & _); [discriminate|].
    exact (f_equal fst (H "" ": not in tenant. Popup window closed" eq_refl)).
  - destruct (getFriendlyAuthError_classifies
                (js_Error "user_cancelled: closed by user")
                "user_cancelled: closed by user"
                (initial_world ∅ true) eq_refl) as (_ & H & _); [discriminate|].
    exact (f_equal fst (H "" ": closed by user" eq_refl (or_introl eq_refl))).
  - destruct (getFriendlyAuthError_classifies (js_Error "network down")
                "network down" (initial_world ∅ true) eq_refl)
      as (_ & _ & H); [discriminate|].
    exact (f_equal fst (H eq_refl eq_refl eq_refl)).
Defined.

(** The world after [setError(e)]. *)
Lemma setError_run (e : value) (w : World) :
  setError e w =
    (Ok tt,
     mkWorld (storage w) (s_isAuthenticated w) (s_userData w) e (s_loading w)
       (s_msalInstance w) (s_msalInitialized w) (listening w)
       (trace w ++ [SetError e])).
Proof. destruct w. run. done. Qed.

Lemma js_or_truthy_r (a b : value) : truthy b = true -> truthy (js_or a b) = true.
Proof. unfold js_or. by destruct (truthy a) eqn:Ha. Qed.

(** How [setError(friendly || (err?.message || "Login failed."))] ends. *)
Lemma report_login_error_run (err : value) (w : World) :
  (exists e,
     truthy e = true
     /\ report_login_error err w =
          (Ok tt,
           mkWorld (storage w) (s_isAuthenticated w) (s_userData w) e
             (s_loading w) (s_msalInstance w) (s_msalInitialized w)
             (listening w) (trace w ++ [SetError e])))
  \/ report_login_error err w = (Throw includes_TypeError, w).
Proof.
  unfold report_login_error, bind.
  rewrite getFriendlyAuthError_run.
  destruct (auth_error_text err) as [| |b|n|m|l|fs]; cbv beta iota;
    try (by right); left.
  - eexists. split; [|apply setError_run].
    by apply js_or_truthy_r, js_or_truthy_r.
  - destruct (existsb _ l); [|destruct (_ || _)]; cbv beta iota;
      (eexists; split; [|apply setError_run]);
      by apply js_or_truthy_r, js_or_truthy_r.
Qed.

(** X15.  When the interactive login reports an error, the error state is
    never left empty: [report_login_error] either throws the [TypeError]
    of [msg.includes] (the text of the error is neither a string nor an
    array) without changing anything, or sets an error that is truthy, at
    worst ["Login failed."]. *)
Theorem login_error_is_never_empty (err : value) (w : World) :
  (fst (report_login_error err w) = Ok tt
   /\ truthy (s_error (snd (report_login_error err w))) = true
   /\ storage (snd (report_login_error err w)) = storage w
   /\ s_isAuthenticated (snd (report_login_error err w)) = s_isAuthenticated w)
  \/ report_login_error err w = (Throw includes_TypeError, w).
Proof.
  destruct (report_login_error_run err w) as [(e & He & Hrun)|Hrun];
    rewrite Hrun; [left|by right].
  done.
Qed.

(* ===================================================================== *)
(** ** Login *)
(* ===================================================================== *)

Lemma report_TypeError_run (w : World) :
  report_login_error includes_TypeError w =
    (Ok tt,
     mkWorld (storage w) (s_isAuthenticated w) (s_userData w)
       (VStr "msg.includes is not a function") (s_loading w)
       (s_msalInstance w) (s_msalInitialized w) (listening w)
       (trace w ++ [SetError (VStr "msg.includes is not a function")])).
Proof.
  unfold report_login_error, bind. rewrite getFriendlyAuthError_run.
  change (auth_error_text includes_TypeError)
    with (VStr "msg.includes is not a function").
  cbv beta iota. by rewrite setError_run.
Qed.

(** [login] around a guarded block that settles: the promise resolves
    after [setLoading(false)], in a world where the block's condition
    holds or, the block having thrown, with the error of the report. *)
Lemma login_shape_settles (Q : World -> Prop) (body : M unit) (w : World) :
  settles Q body w ->
  exists w1,
    try_finally (try_catch body (fun err => report_login_error err))
      (setLoading false) w = (Ok tt, loading_done w1)
    /\ (Q w1 \/ ends_with_error w1).
Proof.
  intros [(w1 & Hrun & HQ)|(w1 & Hrun)]; unfold try_finally, try_catch;
    rewrite Hrun.
  - exists w1. split; [|by left]. destruct w1. unfold loading_done. run. done.
  - rewrite report_TypeError_run.
    exists (mkWorld (storage w1) (s_isAuthenticated w1) (s_userData w1)
              (VStr "msg.includes is not a function") (s_loading w1)
              (s_msalInstance w1) (s_msalInitialized w1) (listening w1)
              (trace w1 ++ [SetError (VStr "msg.includes is not a function")])).
    split; [|by right]. destruct w1. unfold loading_done. run. done.
Qed.

(** [exchangeTokenForJWT] resolves, authenticated with the error cleared
    or with an error. *)
Lemma exchangeTokenForJWT_settles (P : Platform) (acct : AccountInfo) (w : World) :
  exists w',
    exchangeTokenForJWT P acct w = (Ok tt, w')
    /\ (ends_with_error w' \/ ends_authenticated w').
Proof.
  unfold exchangeTokenForJWT. run.
  destruct (loginWithAzure P acct w) as [[result|e] [st ia ud er lo mi mn li tr]];
    run; [|eexists; split; [reflexivity|by left]].
  destruct (truthy (opt_prop result "success")) eqn:Hs; run;
    [|eexists; split; [reflexivity|by left]].
  destruct (truthy_opt_prop_object _ _ Hs) as [fs ->].
  rewrite prop_of_object. run. eexists. split; [reflexivity|by right].
Qed.

(** Reading a field of an object literal. *)
Ltac fields :=
  rewrite ?prop_of_object;
  cbn [opt_prop assoc default from_option id truthy String.eqb Ascii.eqb Bool.eqb].

(** One step over a call of [devLogin] that succeeds. *)
Ltac devLogin_ok_step P data Hpost Hok :=
  match goal with
  | |- context [devLogin P ?o ?w1] =>
      rewrite (devLogin_success P o data w1 Hpost Hok)
  end;
  unfold after_dispatch; cbn [listening].

Section login_facts.
Variable P : Platform.
Variable msalInstance : option MsalApp.
Variable msalInitialized : bool.

Lemma login_dev_failed (w : World) :
  exchange_succeeded
    (axios_post P dev_url (dev_request P (default_dev_identity P))) = false ->
  login_dev P w =
    (Ok tt,
     mkWorld (storage w) (s_isAuthenticated w) (s_userData w)
       (VStr "Development login failed") false
       (s_msalInstance w) (s_msalInitialized w) (listening w)
       (trace w ++ [SetLoading true; SetError VNull;
                    HttpPost dev_url (dev_request P (default_dev_identity P));
                    SetError (VStr "Development login failed");
                    SetLoading false])).
Proof.
  intros Hfail. destruct w as [st ia ud er lo mi mn li tr].
  unfold login_dev. run. fold (default_dev_identity P).
  match goal with |- context [devLogin P ?o ?w1] =>
    destruct (devLogin_failure P o w1 Hfail) as [err ->] end.
  run. fields. run. by rewrite <- !app_assoc.
Qed.

Lemma login_dev_succeeded (w : World) (data : value) :
  axios_post P dev_url (dev_request P (default_dev_identity P))
    = Response data ->
  exchange_succeeded (Response data) = true ->
  exists listener_effects,
    login_dev P w =
      (Ok tt,
       mkWorld (<[AUTH_METHOD_KEY := "dev"]>
                  (store_session (response_token data) (response_user data)
                     (storage w)))
         true (response_user data) VNull false
         (s_msalInstance w) (s_msalInitialized w) (listening w)
         (trace w ++ [SetLoading true; SetError VNull;
                      HttpPost dev_url (dev_request P (default_dev_identity P))]
                  ++ session_writes (response_token data) (response_user data)
                  ++ DispatchEvent "nextbi:auth-changed"
                       (VObj [("method", VStr "dev");
                              ("user", response_user data)])
                  :: listener_effects
                  ++ [SetUserData (response_user data);
                      SetIsAuthenticated true;
                      StorageSet AUTH_METHOD_KEY "dev";
                      SetError VNull; Navigate "/"; SetLoading false]))
    /\ forallb (fun e => negb (is_post e || is_msal e || is_dispatch e))
         listener_effects = true
    /\ existsb is_navigate listener_effects = false.
Proof.
  intros Hpost Hok. destruct w as [st ia ud er lo mi mn li tr].
  unfold login_dev. run. fold (default_dev_identity P).
  devLogin_ok_step P data Hpost Hok.
  destruct li.
  - rewrite auth_changed_handler_run. cbn [storage snd].
    match goal with |- context [if truthy ?u then _ else _] =>
      destruct (truthy u) end.
    + run. fields. run. fields. run.
      exists [SetUserData
                (stored_user
                   (store_session (response_token data) (response_user data) st));
              SetIsAuthenticated true; SetError VNull].
      split; [|done]. unfold session_writes. rewrite <- !app_assoc. reflexivity.
    + run. fields. run. fields. run.
      exists [SetUserData VNull; SetIsAuthenticated false].
      split; [|done]. unfold session_writes. rewrite <- !app_assoc. reflexivity.
  - run. fields. run. fields. run.
    exists []. split; [|done].
    unfold session_writes. rewrite <- !app_assoc. reflexivity.
Qed.

Lemma login_dev_settles (w : World) :
  settles (fun w1 => ends_with_error w1 \/ ends_authenticated w1)
    (login_dev P) w.
Proof.
  left.
  destruct (exchange_succeeded
              (axios_post P dev_url (dev_request P (default_dev_identity P))))
    eqn:Hok.
  - destruct (axios_post P dev_url (dev_request P (default_dev_identity P)))
      as [data|] eqn:Hpost; [|discriminate].
    destruct (login_dev_succeeded w data Hpost Hok) as (t & -> & _).
    eexists. split; [reflexivity|by right].
  - rewrite (login_dev_failed w Hok). eexists. split; [reflexivity|by left].
Qed.

Lemma wait_for_msal_stale (n : nat) (w : World) :
  wait_for_msal false n w = (Ok tt, after_effects w (repeat (Sleep 300) n)).
Proof.
  revert w. induction n as [|n IH]; intros [st ia ud er lo mi mn li tr].
  - unfold after_effects. cbn [repeat wait_for_msal]. run.
    by rewrite app_nil_r.
  - cbn [wait_for_msal]. run. rewrite IH. unfold after_effects. run.
    rewrite <- app_assoc. done.
Qed.

Lemma login_interactive_settles (app : MsalApp) (w : World) :
  settles
    (fun w1 => ends_with_error w1 \/ ends_authenticated w1
               \/ handed_to_redirect app w w1)
    (login_interactive P app) w.
Proof.
  destruct w as [st ia ud er lo mi mn li tr].
  unfold settles, login_interactive. run.
  destruct (msal_getAllAccounts app) as [|acct others] eqn:Haccounts.
  - run. destruct (msal_loginRedirect app) as [[]|e1] eqn:Hredirect; run.
    { left. eexists. split; [reflexivity|]. right. right. done. }
    destruct (msal_loginPopup app) as [[[acct|] tok]|e2]; run; cbn [account].
    + match goal with |- context [exchangeTokenForJWT P ?a ?w1] =>
        destruct (exchangeTokenForJWT_settles P a w1) as (w' & -> & [H|H]) end;
        left; eexists; (split; [reflexivity|]); [by left|by right; left].
    + left. eexists. split; [reflexivity|by left].
    + match goal with |- context [report_login_error ?e ?w1] =>
        destruct (report_login_error_run e w1) as [(x & Hx & ->)| ->] end.
      * left. eexists. split; [reflexivity|by left].
      * right. eauto.
  - match goal with |- context [exchangeTokenForJWT P ?a ?w1] =>
      destruct (exchangeTokenForJWT_settles P a w1) as (w' & -> & [H|H]) end;
      left; eexists; (split; [reflexivity|]); [by left|by right; left].
Qed.

Lemma login_provider_settles (w : World) :
  settles
    (fun w1 => ends_with_error w1 \/ ends_authenticated w1
               \/ (msalInitialized = true
                   /\ exists app, msalInstance = Some app
                                  /\ handed_to_redirect app w w1))
    (login_provider P msalInstance msalInitialized) w.
Proof.
  unfold login_provider.
  destruct msalInstance as [app|].
  - destruct msalInitialized; cbn [negb].
    + destruct (login_interactive_settles app w)
        as [(w1 & Hrun & [H|[H|H]])|(w1 & Hrun)]; [left..|right; eauto];
        exists w1; (split; [done|]); [by left|by right; left|].
      right. right. eauto.
    + left. unfold bind. rewrite wait_for_msal_stale. rewrite setError_run.
      eexists. split; [reflexivity|by left].
  - left. rewrite setError_run. eexists. split; [reflexivity|by left].
Qed.

End login_facts.

(** X16.  [login] never rejects and always ends with [loading] false: in
    developer mode and in provider mode, for every answer of the backend,
    of MSAL and of [loginWithAzure], the promise resolves, and it leaves
    one of three states.  Either a non-empty error is set; or the
    controller is authenticated and the error is cleared; or, in provider
    mode with MSAL ready and no cached account, the redirect was accepted,
    and then the error is cleared and the store and [isAuthenticated] are
    as before. *)
Theorem login_never_rejects
  (P : Platform) (msalInstance : option MsalApp) (msalInitialized : bool)
  (w : World) :
  let w' := snd (login P msalInstance msalInitialized w) in
  fst (login P msalInstance msalInitialized w) = Ok tt
  /\ s_loading w' = false
  /\ (ends_with_error w'
      \/ ends_authenticated w'
      \/ (isDevAuthEnabled P = false
          /\ msalInitialized = true
          /\ exists app, msalInstance = Some app
                         /\ handed_to_redirect app w w')).
Proof.
  cbn zeta. unfold login.
  destruct (isDevAuthEnabled P) eqn:Hmode.
  - destruct (login_shape_settles _ _ w (login_dev_settles P w))
      as (w1 & -> & [[H|H]|H]); cbn [fst snd]; (split; [done|]);
      (split; [done|]); [by left|by right; left|by left].
  - destruct (login_shape_settles _ _ w
                (login_provider_settles P msalInstance msalInitialized w))
      as (w1 & -> & [[H|[H|(Hinit & app & Happ & H)]]|H]); cbn [fst snd];
      (split; [done|]); (split; [done|]);
      [by left|by right; left| |by left].
    right. right. split; [done|]. split; [done|]. exists app. done.
Qed.

(** X17.  Off developer mode, a [login] that finds no MSAL instance, or
    an instance with [msalInitialized] still [false] in its closure, gives
    up without calling MSAL or the backend: in the first case at once, in
    the second after ten waits of 300 ms (the flag it re-reads is the one
    of its own render and cannot change).  It resolves with the error set,
    [loading] false and the session untouched. *)
Theorem login_without_ready_msal_gives_up
  (P : Platform) (app : MsalApp) (initialized : bool) (w : World) :
  isDevAuthEnabled P = false ->
  login P None initialized w =
    (Ok tt,
     login_failed w "Authentication not initialized yet. Please wait a moment." [])
  /\ login P (Some app) false w =
       (Ok tt,
        login_failed w "Authentication not initialized" (repeat (Sleep 300) 10)).
Proof.
  intros Hmode. unfold login, login_provider, login_failed. rewrite Hmode.
  destruct w as [st ia ud er lo mi mn li tr]. split.
  - run. by rewrite <- !app_assoc.
  - cbn [negb]. run. rewrite wait_for_msal_stale. run.
    by rewrite <- !app_assoc.
Qed.

(** X17 on the page [bi.example.org], at the first render. *)
Lemma login_without_ready_msal_gives_up_witness :
  login provider_platform None false (initial_world ∅ true) =
    (Ok tt,
     login_failed (initial_world ∅ true)
       "Authentication not initialized yet. Please wait a moment." [])
  /\ login provider_platform (Some rejecting_app) false (initial_world ∅ true) =
       (Ok tt,
        login_failed (initial_world ∅ true) "Authentication not initialized"
          (repeat (Sleep 300) 10)).
Proof.
  apply (login_without_ready_msal_gives_up provider_platform rejecting_app false
           (initial_world ∅ true)).
  vm_compute. reflexivity.
Defined.

(** X18.  In developer mode [login] ignores MSAL and the stored session:
    it sends exactly one request, to [/api/auth/dev] with the
    configured identity, and resolves with [loading] false.  It navigates
    to [/] exactly when the backend answered with [success] and a token,
    and then the state is authenticated, without error, and the method tag
    is ["dev"]; otherwise the store and [isAuthenticated] are as before and
    the error is ["Development login failed"]. *)
Theorem dev_login_outcome
  (P : Platform) (msalInstance : option MsalApp) (msalInitialized : bool)
  (w : World) :
  isDevAuthEnabled P = true ->
  exists new,
    trace (snd (login P msalInstance msalInitialized w)) = trace w ++ new
    /\ fst (login P msalInstance msalInitialized w) = Ok tt
    /\ List.filter is_post new
       = [HttpPost dev_url (dev_request P (default_dev_identity P))]
    /\ List.filter is_msal new = []
    /\ existsb is_navigate new
       = exchange_succeeded
           (axios_post P dev_url (dev_request P (default_dev_identity P)))
    /\ s_loading (snd (login P msalInstance msalInitialized w)) = false
    /\ if exchange_succeeded
            (axios_post P dev_url (dev_request P (default_dev_identity P)))
       then s_isAuthenticated (snd (login P msalInstance msalInitialized w)) = true
            /\ s_error (snd (login P msalInstance msalInitialized w)) = VNull
            /\ storage (snd (login P msalInstance msalInitialized w))
                 !! AUTH_METHOD_KEY = Some "dev"
       else storage (snd (login P msalInstance msalInitialized w)) = storage w
            /\ s_isAuthenticated (snd (login P msalInstance msalInitialized w))
               = s_isAuthenticated w
            /\ s_error (snd (login P msalInstance msalInitialized w))
               = VStr "Development login failed".
Proof.
  intros Hmode. unfold login. rewrite Hmode. unfold try_finally, try_catch.
  destruct (exchange_succeeded
              (axios_post P dev_url (dev_request P (default_dev_identity P))))
    eqn:Hok.
  - destruct (axios_post P dev_url (dev_request P (default_dev_identity P)))
      as [data|] eqn:Hpost; [|discriminate].
    destruct (login_dev_succeeded P w data Hpost Hok)
      as (t & -> & Hsilent & Hnav).
    destruct (listener_effects_silent t Hsilent) as [Hposts Hmsal].
    run. eexists. split; [by rewrite <- app_assoc|].
    split; [done|]. unfold session_writes. split; [|split; [|split]].
    + cbn. rewrite <- app_assoc, (filter_app_nil is_post t _ Hposts). done.
    + cbn. rewrite <- app_assoc, (filter_app_nil is_msal t _ Hmsal). done.
    + cbn. rewrite <- app_assoc, existsb_app, Hnav. done.
    + split; [done|]. split; [done|]. split; [done|]. apply lookup_insert_eq.
  - rewrite (login_dev_failed P w Hok). run.
    eexists. split; [by rewrite <- app_assoc|]. done.
Qed.

(** X18 on [localhost] with a backend that refuses: one request, no
    navigation, the error set. *)
Lemma dev_login_outcome_witness :
  exists new,
    trace (snd (login dev_platform None false (initial_world ∅ true)))
    = trace (initial_world ∅ true) ++ new
    /\ fst (login dev_platform None false (initial_world ∅ true)) = Ok tt
    /\ List.filter is_post new
       = [HttpPost dev_url (dev_request dev_platform (default_dev_identity dev_platform))]
    /\ List.filter is_msal new = []
    /\ existsb is_navigate new
       = exchange_succeeded
           (axios_post dev_platform dev_url
              (dev_request dev_platform (default_dev_identity dev_platform)))
    /\ s_loading (snd (login dev_platform None false (initial_world ∅ true))) = false
    /\ if exchange_succeeded
            (axios_post dev_platform dev_url
               (dev_request dev_platform (default_dev_identity dev_platform)))
       then s_isAuthenticated
              (snd (login dev_platform None false (initial_world ∅ true))) = true
            /\ s_error (snd (login dev_platform None false (initial_world ∅ true)))
               = VNull
            /\ storage (snd (login dev_platform None false (initial_world ∅ true)))
                 !! AUTH_METHOD_KEY = Some "dev"
       else storage (snd (login dev_platform None false (initial_world ∅ true)))
            = storage (initial_world ∅ true)
            /\ s_isAuthenticated
                 (snd (login dev_platform None false (initial_world ∅ true)))
               = s_isAuthenticated (initial_world ∅ true)
            /\ s_error (snd (login dev_platform None false (initial_world ∅ true)))
               = VStr "Development login failed".
Proof.
  apply (dev_login_outcome dev_platform None false (initial_world ∅ true)).
  vm_compute. reflexivity.
Defined.

(** X19.  Off developer mode, with MSAL ready and no cached account,
    [login] asks for a redirect first.  When the redirect is accepted
    nothing else happens: no popup, no request, the error cleared and
    [loading] false.  When the redirect is rejected its error is dropped
    and the popup is tried once.  A popup that resolves with an account
    hands that account to [exchangeTokenForJWT] and [login] ends as the
    exchange ends, with [loading] false; one that resolves without an
    account sets the error "No account information returned."; when the
    popup is rejected too, [login] still resolves, some non-empty error is
    set, and the store and [isAuthenticated] are as before. *)
Theorem login_redirect_then_popup
  (P : Platform) (app : MsalApp) (w : World) :
  isDevAuthEnabled P = false ->
  msal_getAllAccounts app = [] ->
  match msal_loginRedirect app, msal_loginPopup app with
  | Ok _, _ =>
      login P (Some app) true w =
        (Ok tt,
         mkWorld (storage w) (s_isAuthenticated w) (s_userData w) VNull false
           (s_msalInstance w) (s_msalInitialized w) (listening w)
           (trace w ++ [SetError VNull; SetLoading true; MsalLoginRedirect;
                        SetLoading false]))
  | Throw _, Ok result =>
      match account result with
      | Some acct =>
          login P (Some app) true w =
            (Ok tt,
             loading_done
               (snd (exchangeTokenForJWT P acct
                       (login_prompted w [MsalLoginRedirect; MsalLoginPopup]))))
      | None =>
          login P (Some app) true w =
            (Ok tt,
             mkWorld (storage w) (s_isAuthenticated w) (s_userData w)
               (VStr "No account information returned.") false
               (s_msalInstance w) (s_msalInitialized w) (listening w)
               (trace w ++ [SetError VNull; SetLoading true; MsalLoginRedirect;
                            MsalLoginPopup;
                            SetError (VStr "No account information returned.");
                            SetLoading false]))
      end
  | Throw _, Throw _ =>
      exists e reported,
        truthy e = true
        /\ login P (Some app) true w =
             (Ok tt,
              mkWorld (storage w) (s_isAuthenticated w) (s_userData w) e false
                (s_msalInstance w) (s_msalInitialized w) (listening w)
                (trace w ++ [SetError VNull; SetLoading true; MsalLoginRedirect;
                             MsalLoginPopup]
                         ++ reported ++ [SetLoading false]))
        /\ List.filter is_msal reported = []
        /\ List.filter is_post reported = []
  end.
Proof.
  intros Hmode Hnone. unfold login, login_provider, login_interactive.
  rewrite Hmode, Hnone. cbn [negb].
  destruct w as [st ia ud er lo mi mn li tr].
  destruct (msal_loginRedirect app) as [[]|e1].
  - run. by rewrite <- !app_assoc.
  - destruct (msal_loginPopup app) as [[[acct|] tok]|e2]; cbn [account]; run;
      cbn [account].
    + unfold login_prompted. cbn [storage s_isAuthenticated s_userData
        s_msalInstance s_msalInitialized listening trace].
      rewrite <- !app_assoc. cbn [List.app].
      match goal with |- context [exchangeTokenForJWT P acct ?w1] =>
        destruct (exchangeTokenForJWT_ok P acct w1) as [w' ->] end.
      destruct w'. unfold loading_done. run. done.
    + by rewrite <- !app_assoc.
    + match goal with |- context [report_login_error ?e ?w1] =>
        destruct (report_login_error_run e w1) as [(x & Hx & ->)| ->] end.
      * run. exists x, [SetError x]. split; [done|].
        split; [by rewrite <- !app_assoc|]. done.
      * rewrite report_TypeError_run. run.
        exists (VStr "msg.includes is not a function"),
          [SetError (VStr "msg.includes is not a function")].
        split; [done|]. split; [by rewrite <- !app_assoc|]. done.
Qed.

(** X19 on a page off [localhost]: the redirect and the popup are both
    rejected; the redirect is rejected and the popup resolves with an
    account. *)
Lemma login_redirect_then_popup_witness :
  (exists e reported,
     truthy e = true
     /\ login (msal_platform blocked_app (Ok VNull)) (Some blocked_app) true
          (initial_world ∅ true) =
          (Ok tt,
           mkWorld ∅ false VNull e false None false true
             ([] ++ [SetError VNull; SetLoading true; MsalLoginRedirect;
                     MsalLoginPopup]
                 ++ reported ++ [SetLoading false]))
     /\ List.filter is_msal reported = []
     /\ List.filter is_post reported = [])
  /\ login (msal_platform popup_app (Ok VNull)) (Some popup_app) true
       (initial_world ∅ true) =
       (Ok tt,
        loading_done
          (snd (exchangeTokenForJWT (msal_platform popup_app (Ok VNull))
                  sample_account
                  (login_prompted (initial_world ∅ true)
                     [MsalLoginRedirect; MsalLoginPopup])))).
Proof.
  assert (Hblocked :
            isDevAuthEnabled (msal_platform blocked_app (Ok VNull)) = false)
    by (vm_compute; reflexivity).
  assert (Hpopup :
            isDevAuthEnabled (msal_platform popup_app (Ok VNull)) = false)
    by (vm_compute; reflexivity).
  exact (conj
           (login_redirect_then_popup (msal_platform blocked_app (Ok VNull))
              blocked_app (initial_world ∅ true) Hblocked eq_refl)
           (login_redirect_then_popup (msal_platform popup_app (Ok VNull))
              popup_app (initial_world ∅ true) Hpopup eq_refl)).
Defined.

(* ===================================================================== *)
(** ** The application shell and the developer sign-in button *)
(* ===================================================================== *)

Lemma filter_silent {A} (f : A -> bool) (t : list A) :
  forallb (fun e => negb (f e)) t = true -> List.filter f t = [].
Proof.
  intros Ht. rewrite <- (app_nil_r t). by rewrite (filter_app_nil f t [] Ht).
Qed.

(** X20.  The seeding effect of [App] never rejects.  It sends a request,
    exactly one, to [/api/auth/dev] with the configured identity,
    when [DEV_AUTH] is on and the store holds no non-empty token; in every
    other case it changes nothing and does nothing. *)
Theorem seed_dev_session_requests (P : Platform) (w : World) :
  exists w',
    seed_dev_session P w = (Ok tt, w')
    /\ if DEV_AUTH P && negb (store_has_token (storage w))
       then exists t,
              trace w'
              = trace w
                  ++ HttpPost dev_url (dev_request P (default_dev_identity P)) :: t
              /\ List.filter is_post t = []
              /\ List.filter is_msal t = []
       else w' = w.
Proof.
  unfold seed_dev_session, store_has_token.
  destruct (DEV_AUTH P); cbn [negb andb]; [|by eexists].
  destruct w as [st ia ud er lo mi mn li tr]. run.
  fold (default_dev_identity P).
  destruct (st !! TOKEN_KEY) as [[|a s]|] eqn:Htok; cbn [String.eqb negb];
    [| eexists; split; [reflexivity|done] |].
  all: destruct (exchange_succeeded
                   (axios_post P dev_url (dev_request P (default_dev_identity P))))
         eqn:Hok.
  all: try (match goal with |- context [devLogin ?p ?o ?w1] =>
              destruct (devLogin_failure p o w1 Hok) as [err ->] end;
            run; fields; run; eexists; split; [reflexivity|];
            cbn [trace]; eexists; split; [reflexivity|done]).
  all: destruct (axios_post P dev_url (dev_request P (default_dev_identity P)))
         as [data|] eqn:Hpost; [|discriminate].
  all: match goal with |- context [devLogin ?p ?o ?w1] =>
         rewrite (devLogin_success p o data w1 Hpost Hok) end.
  all: match goal with |- context [after_dispatch ?w1] =>
         destruct (after_dispatch_trace w1) as (t & Ht & Hsilent);
         destruct (after_dispatch w1) as [st' ia' ud' er' lo' mi' mn' li' tr']
       end.
  all: cbn [trace] in Ht; subst tr'; run; fields; run.
  all: destruct (listener_effects_silent t Hsilent) as [Hposts Hmsal].
  all: eexists; split; [reflexivity|]; cbn [trace].
  all: eexists; split; [by rewrite <- app_assoc|].
  all: unfold session_writes; cbn.
  all: by rewrite (filter_silent is_post t Hposts), (filter_silent is_msal t Hmsal).
Qed.

(** X21.  The two guarded routes of [App] never send the browser back and
    forth: once [loading] is over, either [/login] shows the login page
    and [/] redirects to [/login], or [/login] redirects to [/] and [/]
    shows the layout; the second holds exactly when the user is
    authenticated or [DEV_AUTH] is on.  While [loading], both show the
    spinner. *)
Theorem route_guards_do_not_loop (loading isAuthenticated DEV_AUTH : bool) :
  if loading
  then App_render loading isAuthenticated DEV_AUTH true = Spinner
       /\ App_render loading isAuthenticated DEV_AUTH false = Spinner
  else if isAuthenticated || DEV_AUTH
       then App_render loading isAuthenticated DEV_AUTH true = NavigateTo "/"
            /\ App_render loading isAuthenticated DEV_AUTH false = LayoutPage
       else App_render loading isAuthenticated DEV_AUTH true = LoginPage
            /\ App_render loading isAuthenticated DEV_AUTH false
               = NavigateTo "/login".
Proof. by destruct loading, isAuthenticated, DEV_AUTH. Qed.

(** X22.  The developer sign-in button never rejects.  It navigates to
    [/] exactly when the backend answered with [success] and a token, and
    then shows no error; otherwise it shows a non-empty error and the
    store is as before. *)
Theorem onDevSignIn_outcome (P : Platform) (w : World) :
  exists r w',
    onDevSignIn P w = (Ok r, w')
    /\ navigated r
       = exchange_succeeded
           (axios_post P dev_url (dev_request P (default_dev_identity P)))
    /\ if navigated r
       then devError r = VNull
       else truthy (devError r) = true /\ storage w' = storage w.
Proof.
  unfold onDevSignIn. destruct w as [st ia ud er lo mi mn li tr]. run.
  fold (default_dev_identity P).
  destruct (exchange_succeeded
              (axios_post P dev_url (dev_request P (default_dev_identity P))))
    eqn:Hok.
  - destruct (axios_post P dev_url (dev_request P (default_dev_identity P)))
      as [data|] eqn:Hpost; [|discriminate].
    match goal with |- context [devLogin P ?o ?w1] =>
      rewrite (devLogin_success P o data w1 Hpost Hok) end.
    run. fields. run. eexists _, _. split; [reflexivity|]. done.
  - match goal with |- context [devLogin P ?o ?w1] =>
      destruct (devLogin_failure P o w1 Hok) as [err ->] end.
    run. fields. run. fields. run.
    eexists _, _. split; [reflexivity|]. cbn [navigated devError].
    split; [done|]. split; [|done].
    by apply js_or_truthy_r, js_or_truthy_r.
Qed.

(** X23.  Under one configuration the button [Dev sign in (test)] never
    reaches the screen: the login page shows it only when
    [REACT_APP_DEV_AUTH] is ["true"], and with that setting [App] replaces
    the login page at [/login] by a redirect to [/]. *)
Theorem dev_button_never_on_screen
  (P : Platform) (loading isAuthenticated : bool) :
  dev_button_on_screen P loading isAuthenticated = false.
Proof.
  unfold dev_button_on_screen, DEV_AUTH_ENABLED, DEV_AUTH, App_render, login_route.
  destruct loading; [done|].
  destruct isAuthenticated; [done|]. cbn [negb andb].
  by destruct (strict_eq_str _ "true").
Qed.

(** X24.  A login error whose message carries the code [AADSTS50020] ends
    on the login page with the tenant guidance: [login]'s error report
    sets the tenant text as the error, and the page's test for the
    guidance block holds for that text. *)
Theorem tenant_error_shows_guidance (err : value) (m : string) (w : World) :
  opt_prop err "message" = VStr m ->
  includes "AADSTS50020" m = true ->
  fst (report_login_error err w) = Ok tt
  /\ s_error (snd (report_login_error err w)) = VStr tenant_mismatch_message
  /\ tenant_guidance_shown (s_error (snd (report_login_error err w))) = Ok true.
Proof.
  intros Hm Hcode.
  assert (Hne : m <> "") by (intros ->; discriminate).
  unfold report_login_error, bind. rewrite getFriendlyAuthError_run.
  rewrite (auth_error_text_of_message err m Hm Hne).
  unfold classify_text. rewrite Hcode. cbv beta iota.
  rewrite setError_run. cbn [fst snd s_error].
  change (js_or (VStr tenant_mismatch_message)
            (js_or (opt_prop err "message") (VStr "Login failed.")))
    with (VStr tenant_mismatch_message).
  split; [done|]. split; [done|]. by vm_compute.
Qed.

(** X24 for the error [{ message: "AADSTS50020: user not in tenant" }]. *)
Lemma tenant_error_shows_guidance_witness :
  fst (report_login_error
         (VObj [("message", VStr "AADSTS50020: user not in tenant")])
         (initial_world ∅ true)) = Ok tt
  /\ s_error
       (snd (report_login_error
               (VObj [("message", VStr "AADSTS50020: user not in tenant")])
               (initial_world ∅ true)))
     = VStr tenant_mismatch_message
  /\ tenant_guidance_shown
       (s_error
          (snd (report_login_error
                  (VObj [("message", VStr "AADSTS50020: user not in tenant")])
                  (initial_world ∅ true))))
     = Ok true.
Proof.
  exact (tenant_error_shows_guidance
           (VObj [("message", VStr "AADSTS50020: user not in tenant")])
           "AADSTS50020: user not in tenant" (initial_world ∅ true)
           eq_refl eq_refl).
Defined.
